(** * PureMVC (TypeScript standard framework): the View and Model registries

    A shallow embedding of [core/View.ts], [core/Model.ts],
    [patterns/observer/Observer.ts] and the instance methods of
    [core/Controller.ts], and the properties of observer bookkeeping,
    notification dispatch, mediator, proxy and command registration and the
    singleton life cycle.

    Modelling conventions.
    - JavaScript objects are references ([Ref]); [===] on objects is
      equality of references.  Function objects are references too ([Fn]).
    - What application objects do when one of their methods is called is
      given by a method table ([Application]): the core only ever reaches
      mediators, proxies and observer callbacks through these methods.
      Application code acts on an application state [App] and may throw; an
      exception keeps the mutations made before it.
    - [await e] is sequencing: the awaited call runs to completion before
      the next statement.  Interleaving with other, independent dispatches
      is outside this development.
    - The callbacks and hooks of an [Application] leave the registries
      alone while they run.  Callbacks that call the View back during a
      dispatch are those of [LiveView], where the observer arrays are
      objects that the dispatch loop and the callbacks share.
    - Every call the core makes into application code is recorded in a
      [trace], so that "is invoked", "in this order" and "is not invoked"
      are statements about a list of events.
    - The Controller is, for the View, one more object whose callback it
      calls: the program with a Controller is the application whose state
      also holds the command map, and whose callback [executeCommand] runs
      the command registered for the notification. *)

From Stdlib Require Import String List Arith Lia Bool.
From stdpp Require Import base tactics option list.
Import ListNotations.
Local Open Scope string_scope.
Local Open Scope list_scope.

(** ** Values *)

(** Identity of an object. *)
Definition Ref := nat.

(** Identity of a function object. *)
Definition Fn := nat.

(** The value carried by a JavaScript exception: the message of the
    [Error]. *)
Definition Error := string.

(** How a call into application code ends: it returns (an [async] callback:
    its promise is fulfilled), or it throws (its promise is rejected).  To
    the caller that awaits the call the two kinds of failure are the same
    exception. *)
Inductive Completion : Type :=
  | Normal
  | Throw (e : Error).

(** [INotification]: the View only ever calls [getName()]; body and type are
    mutable and live in the application state under [noteRef]. *)
Record INotification : Type := {
  noteRef : Ref;
  getName : string
}.

(** [Observer]: the two public fields set by the constructor. *)
Record Observer : Type := {
  notify : Fn;
  context : Ref
}.

(** [new Observer(notifyMethod, notifyContext)] *)
Definition newObserver (notifyMethod : Fn) (notifyContext : Ref) : Observer :=
  {| notify := notifyMethod; context := notifyContext |}.

(** [compareNotifyContext(object) { return object === this.context; }] *)
Definition compareNotifyContext (this : Observer) (object : Ref) : bool :=
  Nat.eqb object (context this).

(** Calls from the core into application code. *)
Inductive Event : Type :=
  | Notified (o : Observer) (n : INotification)
  | OnRegister (obj : Ref)
  | OnRemove (obj : Ref).

(** ** Application objects *)

(** The application's objects as the core sees them: one method table for
    the whole program, indexed by the object a method is called on. *)
Class Application : Type := {
  (** application-side mutable state *)
  App : Type;
  (** [f.call(thisArg, notification)] for a function object [f] *)
  call : Fn -> Ref -> INotification -> App -> App * Completion;
  (** [IMediator] *)
  getMediatorName : Ref -> string;
  listNotificationInterests : Ref -> App -> list string;
  handleNotification : Ref -> Fn;
  (** [IProxy] *)
  getProxyName : Ref -> string;
  (** hooks of [IMediator] and [IProxy] *)
  onRegister : Ref -> App -> App * Completion;
  onRemove : Ref -> App -> App * Completion
}.

Arguments App : clear implicits.

(** ** State and exceptions *)

Inductive res (T : Type) : Type :=
  | Ret (v : T)
  | Exn (e : Error).
Arguments Ret {T} v.
Arguments Exn {T} e.

(** A computation over a mutable state [S] that returns or throws; the state
    survives a throw. *)
Definition M (S T : Type) : Type := S -> S * res T.

Definition ret {S T} (v : T) : M S T := fun s => (s, Ret v).

Definition throw {S T} (e : Error) : M S T := fun s => (s, Exn e).

Definition bind {S T U} (m : M S T) (k : T -> M S U) : M S U :=
  fun s =>
    match m s with
    | (s', Ret v) => k v s'
    | (s', Exn e) => (s', Exn e)
    end.

Definition gets {S T} (f : S -> T) : M S T := fun s => (s, Ret (f s)).

Definition modify {S} (f : S -> S) : M S unit := fun s => (f s, Ret tt).

#[export] Instance M_ret {S} : MRet (M S) := fun T v => ret v.
#[export] Instance M_bind {S} : MBind (M S) := fun T U k m => bind m k.

(** [xs.forEach(f)], and equally [for (const x of xs) await f(x)] when
    nothing changes [xs] while the loop runs: one call after the other, a
    throw ends the loop. *)
Fixpoint forEach {S X} (xs : list X) (f : X -> M S unit) : M S unit :=
  match xs with
  | [] => ret tt
  | x :: xs' => f x;; forEach xs' f
  end.

(** Run a computation on the second component of a pair. *)
Definition onSnd {S1 S2 T} (m : M S2 T) : M (S1 * S2) T :=
  fun s =>
    let '(s2', r) := m (snd s) in ((fst s, s2'), r).

(** Apply a pure update to the first component of a pair. *)
Definition modifyFst {S1 S2} (f : S1 -> S1) : M (S1 * S2) unit :=
  modify (fun s => (f (fst s), snd s)).

(** ** [Map<string, V>] *)

Module JsMap.
Section Defs.
Context {V : Type}.

(** Entries in insertion order, no key twice. *)
Definition t : Type := list (string * V).

Definition empty : t := [].

Fixpoint get (m : t) (k : string) : option V :=
  match m with
  | [] => None
  | (k', v) :: m' => if String.eqb k' k then Some v else get m' k
  end.

Definition has (m : t) (k : string) : bool :=
  match get m k with
  | Some _ => true
  | None => false
  end.

(** An existing key keeps its place, a new key goes last. *)
Fixpoint set (m : t) (k : string) (v : V) : t :=
  match m with
  | [] => [(k, v)]
  | (k', v') :: m' =>
      if String.eqb k' k then (k', v) :: m' else (k', v') :: set m' k v
  end.

Fixpoint delete (m : t) (k : string) : t :=
  match m with
  | [] => []
  | (k', v') :: m' =>
      if String.eqb k' k then delete m' k else (k', v') :: delete m' k
  end.

(** [[...m.keys()]] *)
Definition keys (m : t) : list string := map fst m.

End Defs.
Arguments t : clear implicits.
End JsMap.

(** ** The world outside the registries *)

Section Environment.
Context {A : Application}.

Record Env : Type := {
  app : App A;
  trace : list Event
}.

(** A call into application code: recorded, run on the application state,
    and a throw becomes an exception of the caller. *)
Definition invoke (ev : Event) (body : App A -> App A * Completion) : M Env unit :=
  fun e =>
    let '(a, c) := body (app e) in
    ({| app := a; trace := trace e ++ [ev] |},
     match c with
     | Normal => Ret tt
     | Throw err => Exn err
     end).

(** [Observer.notifyObserver]:
    [await this.getNotifyMethod().call(this.getNotifyContext(), notification)] *)
Definition notifyObserver (this : Observer) (notification : INotification) : M Env unit :=
  invoke (Notified this notification)
         (call (notify this) (context this) notification).

(** What the callback of [o] does to the application state and how it
    ends, when [o] is notified of [n]. *)
Definition handler (n : INotification) (o : Observer) : App A -> App A * Completion :=
  call (notify o) (context o) n.

(** The application state after the callbacks of [observers] ran for [n],
    one after the other. *)
Definition handled (n : INotification) (observers : list Observer) (a : App A) : App A :=
  fold_left (fun a o => fst (handler n o a)) observers a.

(** Every callback of [observers] completes normally in the state the ones
    before it left. *)
Fixpoint all_normal (n : INotification) (observers : list Observer) (a : App A) : Prop :=
  match observers with
  | [] => True
  | o :: observers' =>
      snd (handler n o a) = Normal /\ all_normal n observers' (fst (handler n o a))
  end.

(** The calls into application code recorded while [m] runs from [s]. *)
Definition events_during {S T} (m : M (S * Env) T) (s : S * Env) : list Event :=
  drop (length (trace (snd s))) (trace (snd (fst (m s)))).

End Environment.
Arguments Env : clear implicits.

(** [observers.splice(i, 1)] *)
Definition splice1 {X} (xs : list X) (i : nat) : list X :=
  take i xs ++ drop (S i) xs.

(** ** Classes with a static [instance] field *)

Section Singleton.
Context {A : Application} {O : Type}.

(** A class as the program sees it: the static field [instance] and the
    objects constructed so far; an object's reference is its index. *)
Record Class : Type := {
  instance : option Ref;
  objects : list O
}.

Definition set_instance (i : option Ref) (cls : Class) : Class :=
  {| instance := i; objects := objects cls |}.

(** [new]: the next free reference and the class with the object added. *)
Definition allocate (o : O) (cls : Class) : Class :=
  {| instance := instance cls; objects := objects cls ++ [o] |}.

(** A method body run with [this] bound to an object of the class.  Only a
    reference that [allocate] handed out is ever a [this]. *)
Definition method {T} (this : Ref) (body : M (O * Env A) T) : M (Class * Env A) T :=
  fun s =>
    match objects (fst s) !! this with
    | Some o =>
        let '((o', e'), r) := body (o, snd s) in
        (({| instance := instance (fst s);
             objects := <[this := o']> (objects (fst s)) |}, e'), r)
    | None => (s, Exn "TypeError: not an object of the class")
    end.

End Singleton.
Arguments Class : clear implicits.

(** ** [View] *)

Module View.
Section Instance.
Context {A : Application}.

(** The private fields of a [View] object. *)
Record t : Type := {
  mediatorMap : JsMap.t Ref;
  observerMap : JsMap.t (list Observer)
}.

Definition set_mediatorMap (this : t) (m : JsMap.t Ref) : t :=
  {| mediatorMap := m; observerMap := observerMap this |}.

Definition set_observerMap (this : t) (m : JsMap.t (list Observer)) : t :=
  {| mediatorMap := mediatorMap this; observerMap := m |}.

(** What the constructor leaves in the fields: two empty maps. *)
Definition fresh : t :=
  {| mediatorMap := JsMap.empty; observerMap := JsMap.empty |}.

(** [registerObserver(notificationName, observer)].  [push] mutates the
    array the map holds, so the map entry changes with it. *)
Definition registerObserver (notificationName : string) (observer : Observer)
    (this : t) : t :=
  match JsMap.get (observerMap this) notificationName with
  | Some observers =>
      set_observerMap this
        (JsMap.set (observerMap this) notificationName (observers ++ [observer]))
  | None =>
      set_observerMap this
        (JsMap.set (observerMap this) notificationName [observer])
  end.

(** The loop [while (i--) { ... }] of [removeObserver], entered with [i]:
    the test sees [i], the body sees [i - 1].  An index below the length
    always holds an observer. *)
Fixpoint removeObserver_loop (observers : list Observer) (notifyContext : Ref)
    (i : nat) : list Observer :=
  match i with
  | 0 => observers
  | S i' =>
      match observers !! i' with
      | Some observer =>
          if compareNotifyContext observer notifyContext
          then splice1 observers i'
          else removeObserver_loop observers notifyContext i'
      | None => removeObserver_loop observers notifyContext i'
      end
  end.

(** The array after the loop ran over all of it. *)
Definition scanned (observers : list Observer) (notifyContext : Ref) : list Observer :=
  removeObserver_loop observers notifyContext (length observers).

(** [removeObserver(notificationName, notifyContext)].  [splice] mutates the
    array the map holds. *)
Definition removeObserver (notificationName : string) (notifyContext : Ref)
    (this : t) : t :=
  match JsMap.get (observerMap this) notificationName with
  | None => this
  | Some observers =>
      let observers' := scanned observers notifyContext in
      if Nat.eqb (length observers') 0
      then set_observerMap this (JsMap.delete (observerMap this) notificationName)
      else set_observerMap this
             (JsMap.set (observerMap this) notificationName observers')
  end.

(** The observers registered for a name: the array the map holds, and none
    when the map has no entry. *)
Definition observers_of (this : t) (notificationName : string) : list Observer :=
  default [] (JsMap.get (observerMap this) notificationName).

(** [async notifyObservers(notification)], for callbacks that leave the View
    alone while they run, as those of an [Application] do: the loop then
    finds the array as it was when the dispatch began.
    [LiveView.notifyObservers] is the loop on the array itself, for callbacks
    that may call the View back; the two agree on the callbacks of an
    [Application]. *)
Definition notifyObservers (notification : INotification) : M (t * Env A) unit :=
  let notificationName := getName notification in
  this ← gets fst;
  match JsMap.get (observerMap this) notificationName with
  | None => ret tt
  | Some observers =>
      forEach observers (fun observer =>
        onSnd (notifyObserver observer notification))
  end.

(** [registerMediator(mediator)] *)
Definition registerMediator (mediator : Ref) : M (t * Env A) unit :=
  let name := getMediatorName mediator in
  this ← gets fst;
  if JsMap.has (mediatorMap this) name then ret tt
  else
    modifyFst (fun this => set_mediatorMap this
                             (JsMap.set (mediatorMap this) name mediator));;
    interests ← gets (fun s => listNotificationInterests mediator (app (snd s)));
    (if Nat.ltb 0 (length interests) then
       let observer := newObserver (handleNotification mediator) mediator in
       forEach interests (fun interest =>
         modifyFst (registerObserver interest observer))
     else ret tt);;
    onSnd (invoke (OnRegister mediator) (onRegister mediator)).

(** The observer [registerMediator] creates for a mediator:
    [new Observer(mediator.handleNotification, mediator)]. *)
Definition mediatorObserver (mediator : Ref) : Observer :=
  newObserver (handleNotification mediator) mediator.

(** The view after the observer of [mediator] was registered for each name
    of [interests], first to last. *)
Definition registered (mediator : Ref) (interests : list string) (this : t) : t :=
  fold_left (fun v i => registerObserver i (mediatorObserver mediator) v)
            interests this.

(** The view after [removeObserver(i, mediator)] ran for each name [i] of
    [interests], first to last. *)
Definition stripped (mediator : Ref) (interests : list string) (this : t) : t :=
  fold_left (fun v i => removeObserver i mediator v) interests this.

(** [retrieveMediator(mediatorName)] *)
Definition retrieveMediator (mediatorName : string) (this : t) : option Ref :=
  JsMap.get (mediatorMap this) mediatorName.

(** [removeMediator(mediatorName)] *)
Definition removeMediator (mediatorName : string) : M (t * Env A) (option Ref) :=
  this ← gets fst;
  match JsMap.get (mediatorMap this) mediatorName with
  | None => ret None
  | Some mediator =>
      interests ← gets (fun s => listNotificationInterests mediator (app (snd s)));
      forEach interests (fun interest =>
        modifyFst (removeObserver interest mediator));;
      modifyFst (fun this => set_mediatorMap this
                               (JsMap.delete (mediatorMap this) mediatorName));;
      onSnd (invoke (OnRemove mediator) (onRemove mediator));;
      ret (Some mediator)
  end.

(** [hasMediator(mediatorName)] *)
Definition hasMediator (mediatorName : string) (this : t) : bool :=
  JsMap.has (mediatorMap this) mediatorName.

End Instance.

Section Static.
Context {A : Application}.

Definition SINGLETON_MSG : Error := "View singleton already constructed!".

(** [new View()].  The guard runs before any field is written; an object
    that is never finished is never reachable, so it is not allocated. *)
Definition constructor : M (Class t * Env A) Ref :=
  cls ← gets fst;
  match instance cls with
  | Some _ => throw SINGLETON_MSG
  | None =>
      let this := length (objects cls) in
      modifyFst (allocate fresh);;
      modifyFst (set_instance (Some this));;
      ret this
  end.

(** [static getInstance()] *)
Definition getInstance : M (Class t * Env A) Ref :=
  cls ← gets fst;
  match instance cls with
  | Some this => ret this
  | None =>
      this ← constructor;
      modifyFst (set_instance (Some this));;
      ret this
  end.

(** [async dispose()] *)
Definition dispose (this : Ref) : M (Class t * Env A) unit :=
  method this (
    names ← gets (fun s => JsMap.keys (mediatorMap (fst s)));
    forEach names (fun name => removeMediator name;; ret tt));;
  modifyFst (set_instance None).

(** A call of a public method on the [View] object [this]. *)
Inductive Call : Type :=
  | CallRegisterObserver (notificationName : string) (observer : Observer)
  | CallRemoveObserver (notificationName : string) (notifyContext : Ref)
  | CallNotifyObservers (notification : INotification)
  | CallRegisterMediator (mediator : Ref)
  | CallRemoveMediator (mediatorName : string)
  | CallDispose.

Definition perform (this : Ref) (c : Call) : M (Class t * Env A) unit :=
  match c with
  | CallRegisterObserver notificationName observer =>
      method this (modifyFst (registerObserver notificationName observer))
  | CallRemoveObserver notificationName notifyContext =>
      method this (modifyFst (removeObserver notificationName notifyContext))
  | CallNotifyObservers notification =>
      method this (notifyObservers notification)
  | CallRegisterMediator mediator =>
      method this (registerMediator mediator)
  | CallRemoveMediator mediatorName =>
      method this (removeMediator mediatorName;; ret tt)
  | CallDispose => dispose this
  end.

(** The states a program can bring the class to: it starts without an
    instance, and then calls [getInstance], the constructor, or a method on
    any reference, however the call ends, with application code changing the
    application state in between. *)
Inductive reachable : Class t * Env A -> Prop :=
  | reachable_start (a : App A) :
      reachable ({| instance := None; objects := [] |},
                 {| app := a; trace := [] |})
  | reachable_getInstance s :
      reachable s -> reachable (fst (getInstance s))
  | reachable_constructor s :
      reachable s -> reachable (fst (constructor s))
  | reachable_perform s this c :
      reachable s -> reachable (fst (perform this c s))
  | reachable_application s (a : App A) :
      reachable s ->
      reachable (fst s, {| app := a; trace := trace (snd s) |}).

End Static.
End View.

(** ** [Model] *)

Module Model.
Section Instance.
Context {A : Application}.

(** The private field of a [Model] object. *)
Record t : Type := {
  proxyMap : JsMap.t Ref
}.

Definition fresh : t := {| proxyMap := JsMap.empty |}.

(** [registerProxy(proxy)] *)
Definition registerProxy (proxy : Ref) : M (t * Env A) unit :=
  modifyFst (fun this =>
    {| proxyMap := JsMap.set (proxyMap this) (getProxyName proxy) proxy |});;
  onSnd (invoke (OnRegister proxy) (onRegister proxy)).

(** [removeProxy(proxyName)] *)
Definition removeProxy (proxyName : string) : M (t * Env A) (option Ref) :=
  this ← gets fst;
  let proxy := JsMap.get (proxyMap this) proxyName in
  match proxy with
  | Some p =>
      modifyFst (fun this =>
        {| proxyMap := JsMap.delete (proxyMap this) proxyName |});;
      onSnd (invoke (OnRemove p) (onRemove p));;
      ret proxy
  | None => ret proxy
  end.

(** [retrieveProxy(proxyName)] *)
Definition retrieveProxy (proxyName : string) (this : t) : option Ref :=
  JsMap.get (proxyMap this) proxyName.

(** [hasProxy(proxyName)] *)
Definition hasProxy (proxyName : string) (this : t) : bool :=
  JsMap.has (proxyMap this) proxyName.

End Instance.

Section Static.
Context {A : Application}.

Definition SINGLETON_MSG : Error := "Model singleton already constructed!".

(** [new Model()] *)
Definition constructor : M (Class t * Env A) Ref :=
  cls ← gets fst;
  match instance cls with
  | Some _ => throw SINGLETON_MSG
  | None =>
      let this := length (objects cls) in
      modifyFst (allocate fresh);;
      modifyFst (set_instance (Some this));;
      ret this
  end.

(** [static getInstance()] *)
Definition getInstance : M (Class t * Env A) Ref :=
  cls ← gets fst;
  match instance cls with
  | Some this => ret this
  | None =>
      this ← constructor;
      modifyFst (set_instance (Some this));;
      ret this
  end.

(** [async dispose()] *)
Definition dispose (this : Ref) : M (Class t * Env A) unit :=
  method this (
    names ← gets (fun s => JsMap.keys (proxyMap (fst s)));
    forEach names (fun name => removeProxy name;; ret tt));;
  modifyFst (set_instance None).

End Static.
End Model.

(** ** [View], with the observer arrays as objects *)

Module LiveView.
Section Instance.
Context {A : Application}.

(** The private fields of a [View] object, with the arrays that
    [#observerMap] holds as objects of a store: [push] and [splice] change
    the array that a running [for ... of] loop walks, and a name that lost
    its entry gets another array when an observer is registered again. *)
Record t : Type := {
  mediatorMap : JsMap.t Ref;
  observerMap : JsMap.t Ref;
  arrays : list (list Observer)
}.

Definition fresh : t :=
  {| mediatorMap := JsMap.empty; observerMap := JsMap.empty; arrays := [] |}.

(** The elements of the array [observers]. *)
Definition elements (this : t) (observers : Ref) : list Observer :=
  default [] (arrays this !! observers).

(** The observers registered for a name. *)
Definition observers_of (this : t) (notificationName : string) : list Observer :=
  match JsMap.get (observerMap this) notificationName with
  | Some observers => elements this observers
  | None => []
  end.

(** [registerObserver(notificationName, observer)]: [push] on the array of
    the name, or a new array under the name. *)
Definition registerObserver (notificationName : string) (observer : Observer)
    (this : t) : t :=
  match JsMap.get (observerMap this) notificationName with
  | Some observers =>
      {| mediatorMap := mediatorMap this;
         observerMap := observerMap this;
         arrays := <[observers := elements this observers ++ [observer]]>
                     (arrays this) |}
  | None =>
      {| mediatorMap := mediatorMap this;
         observerMap := JsMap.set (observerMap this) notificationName
                          (length (arrays this));
         arrays := arrays this ++ [[observer]] |}
  end.

(** [removeObserver(notificationName, notifyContext)]: the scan and the
    [splice] on the array of the name, and the entry of the name deleted
    when the array is left empty. *)
Definition removeObserver (notificationName : string) (notifyContext : Ref)
    (this : t) : t :=
  match JsMap.get (observerMap this) notificationName with
  | None => this
  | Some observers =>
      let spliced := View.scanned (elements this observers) notifyContext in
      {| mediatorMap := mediatorMap this;
         observerMap := if Nat.eqb (length spliced) 0
                        then JsMap.delete (observerMap this) notificationName
                        else observerMap this;
         arrays := <[observers := spliced]> (arrays this) |}
  end.

(** What a function object does when it is called, in a program whose
    callbacks may call the View back: it acts on the View object as well as
    on the application state. *)
Definition Callbacks : Type :=
  Fn -> Ref -> INotification -> t * App A -> (t * App A) * Completion.


Context (callbacks : Callbacks).

(** What the callback of [o] does and how it ends, when [o] is notified of
    [n]. *)
Definition handler (n : INotification) (o : Observer)
    : t * App A -> (t * App A) * Completion :=
  callbacks (notify o) (context o) n.

(** [Observer.notifyObserver], with such a callback. *)
Definition notifyObserver (this : Observer) (notification : INotification)
    : M (t * Env A) unit :=
  fun s =>
    let '((v, a), c) := handler notification this (fst s, app (snd s)) in
    ((v, {| app := a; trace := trace (snd s) ++ [Notified this notification] |}),
     match c with
     | Normal => Ret tt
     | Throw err => Exn err
     end).

(** The loop [for (const observer of observers)
    await observer.notifyObserver(notification)].  The array iterator holds
    the array and the next index, and reads length and element from the
    array as it is when the step runs.  An observer that a callback pushes
    is visited too, so that the loop need not end: [fuel] bounds the number
    of steps, and [None] is a loop that did not end within it. *)
Fixpoint forOf (fuel : nat) (observers : Ref) (index : nat)
    (notification : INotification) (s : t * Env A)
    : option ((t * Env A) * res unit) :=
  match fuel with
  | 0 => None
  | S fuel' =>
      match elements (fst s) observers !! index with
      | None => Some (s, Ret tt)
      | Some observer =>
          match notifyObserver observer notification s with
          | (s', Ret _) => forOf fuel' observers (S index) notification s'
          | (s', Exn err) => Some (s', Exn err)
          end
      end
  end.

(** [async notifyObservers(notification)] *)
Definition notifyObservers (fuel : nat) (notification : INotification)
    (s : t * Env A) : option ((t * Env A) * res unit) :=
  match JsMap.get (observerMap (fst s)) (getName notification) with
  | None => Some (s, Ret tt)
  | Some observers => forOf fuel observers 0 notification s
  end.

(** The state after the callbacks of [observers] ran for [n], one after the
    other. *)
Definition handled (n : INotification) (observers : list Observer)
    (s : t * App A) : t * App A :=
  fold_left (fun s o => fst (handler n o s)) observers s.

(** Every callback of [observers] completes normally in the state the ones
    before it left. *)
Fixpoint all_normal (n : INotification) (observers : list Observer)
    (s : t * App A) : Prop :=
  match observers with
  | [] => True
  | o :: observers' =>
      snd (handler n o s) = Normal /\ all_normal n observers' (fst (handler n o s))
  end.


End Instance.

(** The View object as a program sees it between two calls: every name with
    the elements of its array. *)
Definition snapshot (this : t) : View.t :=
  {| View.mediatorMap := mediatorMap this;
     View.observerMap :=
       map (fun entry => (fst entry, elements this (snd entry)))
           (observerMap this) |}.

(** Every array of the observer map is an object of the store, and no two
    names share one. *)
Definition valid (this : t) : Prop :=
  Forall (fun entry : string * Ref => snd entry < length (arrays this))
         (observerMap this)
  /\ List.NoDup (map snd (observerMap this)).

End LiveView.

(** ** Properties of [View] objects *)

Section ViewProperties.
Context {A : Application}.

(** Every entry of the observer map holds at least one observer. *)
Definition lists_nonempty (this : View.t) : Prop :=
  Forall (fun entry : string * list Observer => snd entry <> [])
         (View.observerMap this).

(** A computation on a [View] object keeps a property of the object. *)
Definition keeps {T} (P : View.t -> Prop) (c : M (View.t * Env A) T) : Prop :=
  forall v e, P v -> P (fst (fst (c (v, e)))).

End ViewProperties.

(** ** More properties of [View] objects *)

Section MoreViewProperties.
Context {A : Application}.

(** Every entry of the mediator map holds a mediator of that name. *)
Definition named_by_key (v : View.t) : Prop :=
  forall k m, In (k, m) (View.mediatorMap v) -> getMediatorName m = k.

End MoreViewProperties.

(** How many observers of a list have the context. *)
Definition count_context (c : Ref) (os : list Observer) : nat :=
  length (List.filter (fun o => compareNotifyContext o c) os).

(** The observers of a list that have another context. *)
Definition others (c : Ref) (os : list Observer) : list Observer :=
  List.filter (fun o => negb (compareNotifyContext o c)) os.


(** ** [Controller] *)

Module Controller.
Section Instance.
Context {A : Application}.

(** What the Controller needs to know of the program: its own reference, the
    function object of its method [executeCommand], and what
    [new commandClass()] followed by [command.execute(notification)] does
    for a command class. *)
Record Commands : Type := {
  controller : Ref;
  executeCommandFn : Fn;
  execute : Ref -> INotification -> App A -> App A * Completion
}.

Context (C : Commands).

(** The private field [#commandMap] of the Controller object.  Its field
    [#view] is the View object of the state. *)
Record t : Type := {
  commandMap : JsMap.t Ref
}.

Definition fresh : t := {| commandMap := JsMap.empty |}.

(** The body of [async executeCommand(notification)], on the fields of the
    Controller and the application state. *)
Definition executeCommand_run (notification : INotification)
    (s : t * App A) : (t * App A) * Completion :=
  match JsMap.get (commandMap (fst s)) (getName notification) with
  | Some commandClass =>
      let '(a, c) := execute C commandClass notification (snd s) in
      ((fst s, a), c)
  | None => (s, Normal)
  end.

(** Application code that leaves the Controller alone. *)
Definition aside {T} (f : App A -> App A * T) (s : t * App A) : (t * App A) * T :=
  let '(a, r) := f (snd s) in ((fst s, a), r).

(** The program as the View sees it once there is a Controller: the
    Controller is one more object whose callback the View calls.
    [executeCommand] called on a [this] that is not the Controller fails on
    the private field. *)
Definition withController : Application := {|
  App := t * App A;
  call f this n s :=
    if Nat.eqb f (executeCommandFn C)
    then if Nat.eqb this (controller C)
         then executeCommand_run n s
         else (s, Throw "TypeError: Cannot read private member #commandMap")
    else aside (call f this n) s;
  getMediatorName := getMediatorName;
  listNotificationInterests m s := listNotificationInterests m (snd s);
  handleNotification := handleNotification;
  getProxyName := getProxyName;
  onRegister obj := aside (onRegister obj);
  onRemove obj := aside (onRemove obj)
|}.

(** [this] of a Controller method, and an update of its fields. *)
Definition this_of (s : View.t * Env withController) : t :=
  fst (app (snd s) : t * App A).

Definition modifyThis (f : t -> t) : M (View.t * Env withController) unit :=
  modify (fun s : View.t * Env withController =>
    (fst s,
     @Build_Env withController
       (f (this_of s), snd (app (snd s) : t * App A))
       (trace (snd s)))).

(** The state of the rest of the program. *)
Definition program_of (s : View.t * Env withController) : App A :=
  snd (app (snd s) : t * App A).

(** The environment with another command map. *)
Definition with_commandMap (e : Env withController) (cm : JsMap.t Ref)
    : Env withController :=
  @Build_Env withController
    ({| commandMap := cm |}, snd (app e : t * App A)) (trace e).

(** The observer [registerCommand] creates:
    [new Observer(this.executeCommand, this)]. *)
Definition commandObserver : Observer :=
  newObserver (executeCommandFn C) (controller C).

(** [async executeCommand(notification)], called directly. *)
Definition executeCommand (notification : INotification)
    : M (View.t * Env withController) unit :=
  onSnd (fun e : Env withController =>
    let '(s, c) := executeCommand_run notification (app e) in
    (@Build_Env withController s (trace e),
     match c with
     | Normal => Ret tt
     | Throw err => Exn err
     end)).

(** [registerCommand(notificationName, commandClass)] *)
Definition registerCommand (notificationName : string) (commandClass : Ref)
    : M (View.t * Env withController) unit :=
  this ← gets this_of;
  (if negb (JsMap.has (commandMap this) notificationName)
   then modifyFst (View.registerObserver notificationName
                     (newObserver (executeCommandFn C) (controller C)))
   else ret tt);;
  modifyThis (fun this =>
    {| commandMap := JsMap.set (commandMap this) notificationName commandClass |}).

(** [hasCommand(notificationName)] *)
Definition hasCommand (notificationName : string) (this : t) : bool :=
  JsMap.has (commandMap this) notificationName.

(** [removeCommand(notificationName)] *)
Definition removeCommand (notificationName : string)
    : M (View.t * Env withController) unit :=
  this ← gets this_of;
  if hasCommand notificationName this
  then
    modifyFst (View.removeObserver notificationName (controller C));;
    modifyThis (fun this =>
      {| commandMap := JsMap.delete (commandMap this) notificationName |})
  else ret tt.

(** [async dispose()], with the static field [Controller.instance] as the
    first component of the state. *)
Definition dispose : M (option Ref * (View.t * Env withController)) unit :=
  onSnd (
    names ← gets (fun s => JsMap.keys (commandMap (this_of s)));
    forEach names (fun name => removeCommand name));;
  modifyFst (fun _ => None).

(** A call that a program makes once the Controller exists: a method of the
    Controller, or a method of the View. *)
Inductive Call : Type :=
  | CallRegisterCommand (notificationName : string) (commandClass : Ref)
  | CallRemoveCommand (notificationName : string)
  | CallExecuteCommand (notification : INotification)
  | CallNotifyObservers (notification : INotification)
  | CallRegisterObserver (notificationName : string) (observer : Observer)
  | CallRemoveObserver (notificationName : string) (notifyContext : Ref)
  | CallRegisterMediator (mediator : Ref)
  | CallRemoveMediator (mediatorName : string).

Definition perform (c : Call) : M (View.t * Env withController) unit :=
  match c with
  | CallRegisterCommand notificationName commandClass =>
      registerCommand notificationName commandClass
  | CallRemoveCommand notificationName => removeCommand notificationName
  | CallExecuteCommand notification => executeCommand notification
  | CallNotifyObservers notification =>
      View.notifyObservers (A := withController) notification
  | CallRegisterObserver notificationName observer =>
      modifyFst (View.registerObserver notificationName observer)
  | CallRemoveObserver notificationName notifyContext =>
      modifyFst (View.removeObserver notificationName notifyContext)
  | CallRegisterMediator mediator =>
      View.registerMediator (A := withController) mediator
  | CallRemoveMediator mediatorName =>
      View.removeMediator (A := withController) mediatorName;; ret tt
  end.

(** The program keeps the Controller to itself: the observers and mediators
    it registers and the contexts it removes are not the Controller. *)
Definition foreign (c : Call) : Prop :=
  match c with
  | CallRegisterObserver _ observer => context observer <> controller C
  | CallRemoveObserver _ notifyContext => notifyContext <> controller C
  | CallRegisterMediator mediator => mediator <> controller C
  | _ => True
  end.

(** The states such a program reaches from a new View and a new
    Controller. *)
Inductive reachable : View.t * Env withController -> Prop :=
  | reachable_start (a : App A) :
      reachable (View.fresh, @Build_Env withController (fresh, a) [])
  | reachable_perform s c :
      reachable s -> foreign c -> reachable (fst (perform c s))
  | reachable_application s (a : App A) :
      reachable s ->
      reachable (fst s,
                 @Build_Env withController (this_of s, a) (trace (snd s))).

(** The Controller and the View agree: under every name the View holds one
    observer with the Controller as context when a command is registered for
    the name and none when not, and such an observer is the one that
    [registerCommand] creates. *)
Definition tidy (s : View.t * Env withController) : Prop :=
  forall name,
    count_context (controller C) (View.observers_of (fst s) name)
    = (if hasCommand name (this_of s) then 1 else 0)
    /\ (forall o, In o (View.observers_of (fst s) name) ->
                  context o = controller C -> o = commandObserver).

(** The Controller is not among the mediators of the View. *)
Definition apart (s : View.t * Env withController) : Prop :=
  forall k m, In (k, m) (View.mediatorMap (fst s)) -> m <> controller C.

End Instance.
End Controller.

(** ** A small application to run the registries on *)

Module Demo.

(** The application state is the list of marks its code leaves behind: a
    callback leaves the number of its function, a hook the reference of its
    object.  Function 9 throws after leaving its mark, and so does the
    [onRemove] hook of object 7. *)
Definition call (f : Fn) (this : Ref) (n : INotification) (a : list nat)
    : list nat * Completion :=
  (a ++ [f], if Nat.eqb f 9 then Throw "boom" else Normal).

(** Objects 1 and 2 are mediators named A, every other one is named B. *)
Definition getMediatorName (m : Ref) : string :=
  if Nat.ltb m 3 then "A" else "B".

(** Mediator 3 reports X and Y until some code has left a mark and only X
    from then on; every other mediator always reports X and Y. *)
Definition listNotificationInterests (m : Ref) (a : list nat) : list string :=
  if Nat.eqb m 3
  then match a with [] => ["X"; "Y"] | _ :: _ => ["X"] end
  else ["X"; "Y"].

Definition handleNotification (m : Ref) : Fn := 100 + m.

Definition getProxyName (p : Ref) : string := "colors".

Definition onRegister (obj : Ref) (a : list nat) : list nat * Completion :=
  (a ++ [obj], Normal).

Definition onRemove (obj : Ref) (a : list nat) : list nat * Completion :=
  (a ++ [obj], if Nat.eqb obj 7 then Throw "onRemove failed" else Normal).

Definition application : Application :=
  Build_Application (list nat) call getMediatorName listNotificationInterests
    handleNotification getProxyName onRegister onRemove.

(** Two observers and a third whose callback throws. *)
Definition o1 : Observer := newObserver 1 10.
Definition o2 : Observer := newObserver 2 20.
Definition o9 : Observer := newObserver 9 90.

Definition note (name : string) : INotification :=
  {| noteRef := 50; getName := name |}.

(** The environment with application state [a] and trace [t]. *)
Definition env (a : list nat) (t : list Event) : Env application :=
  @Build_Env application a t.

Definition env0 : Env application := env [] [].

(** A view with [o1] then [o2] registered for N. *)
Definition view12 : View.t :=
  View.registerObserver "N" o2 (View.registerObserver "N" o1 View.fresh).

(** A view with [o1], [o9], [o2] registered for N, in that order. *)
Definition view192 : View.t :=
  View.registerObserver "N" o2
    (View.registerObserver "N" o9 (View.registerObserver "N" o1 View.fresh)).

(** [view12] with [o1] also registered for X. *)
Definition view12X : View.t := View.registerObserver "X" o1 view12.

(** [view12X] after the registration of mediator 1. *)
Definition view_with_1 : View.t :=
  fst (fst (View.registerMediator (A := application) 1 (view12X, env0))).

(** A view in which the observer that [registerMediator] would create for
    mediator 1 was registered for X by hand. *)
Definition view_observing_1 : View.t :=
  View.registerObserver "X" (View.mediatorObserver (A := application) 1) View.fresh.

(** The view after the registration of mediator 3, which reported X and Y. *)
Definition view_with_3 : View.t :=
  fst (fst (View.registerMediator (A := application) 3 (View.fresh, env0))).

(** The class [View] after [getInstance()] and the registration of mediator 1
    with the instance, and the class [Model] after [getInstance()] and the
    registration of proxy 5. *)
Definition views1 : Class View.t :=
  fst (fst (method 0 (View.registerMediator (A := application) 1)
              (fst (View.getInstance (A := application)
                      ({| instance := None; objects := [] |}, env0))))).

Definition models1 : Class Model.t :=
  fst (fst (method 0 (Model.registerProxy (A := application) 5)
              (fst (Model.getInstance (A := application)
                      ({| instance := None; objects := [] |}, env0))))).

(** The program state after [getInstance()], the registration of [o1] and
    [o2] for N with the instance, and [removeObserver("N", 10)]. *)
Definition state2 : Class View.t * Env application :=
  fst (View.perform 0 (View.CallRemoveObserver "N" 10)
    (fst (View.perform 0 (View.CallRegisterObserver "N" o2)
      (fst (View.perform 0 (View.CallRegisterObserver "N" o1)
        (fst (View.getInstance
                ({| instance := None; objects := [] |}, env0)))))))).

(** The program state after [getInstance()] and the registration of
    mediator 1 with the instance. *)
Definition state1 : Class View.t * Env application :=
  fst (View.perform 0 (View.CallRegisterMediator 1)
    (fst (View.getInstance ({| instance := None; objects := [] |}, env0)))).

(** The program state after [getInstance()] and the registration of
    mediator 7, whose [onRemove] hook throws, and then of mediator 1. *)
Definition state71 : Class View.t * Env application :=
  fst (View.perform 0 (View.CallRegisterMediator 1)
    (fst (View.perform 0 (View.CallRegisterMediator 7)
      (fst (View.getInstance ({| instance := None; objects := [] |}, env0)))))).


(** Callbacks that call the View back.  Function 1, the callback of [o1],
    leaves its mark and unregisters the observer it was called through,
    [view.removeObserver("N", this)]; function 3, the callback of [o3],
    leaves its mark and registers [o2] for M; every other function does
    what [call] says. *)
Definition callbacks : LiveView.Callbacks (A := application) :=
  fun f this n s =>
    if Nat.eqb f 1
    then ((LiveView.removeObserver "N" this (fst s), snd s ++ [f]), Normal)
    else if Nat.eqb f 3
    then ((LiveView.registerObserver "M" o2 (fst s), snd s ++ [f]), Normal)
    else let '(a, c) := call f this n (snd s) in ((fst s, a), c).

(** A View object with [o1] then [o2] registered for N, and one with [o2]
    then [o3]. *)
Definition live12 : LiveView.t :=
  LiveView.registerObserver "N" o2
    (LiveView.registerObserver "N" o1 LiveView.fresh).


(** The small application with proxies under names of their own: proxy 5 is
    named colors, every other one shapes. *)
Definition application2 : Application :=
  Build_Application (list nat) call getMediatorName listNotificationInterests
    handleNotification (fun p => if Nat.eqb p 5 then "colors" else "shapes")
    onRegister onRemove.

(** The class [View] after [getInstance()] and the registration of
    mediators 1 and 3, and the class [Model] after [getInstance()] and the
    registration of proxies 5 and 6. *)
Definition views13 : Class View.t :=
  fst (fst (method 0 (View.registerMediator (A := application2) 3)
    (fst (method 0 (View.registerMediator (A := application2) 1)
      (fst (View.getInstance (A := application2)
              ({| instance := None; objects := [] |},
               @Build_Env application2 [] []))))))).

Definition models56 : Class Model.t :=
  fst (fst (method 0 (Model.registerProxy (A := application2) 6)
    (fst (method 0 (Model.registerProxy (A := application2) 5)
      (fst (Model.getInstance (A := application2)
              ({| instance := None; objects := [] |},
               @Build_Env application2 [] []))))))).

(** The class [Model] after [getInstance()] and the registration of proxy 7,
    whose [onRemove] hook throws. *)
Definition models7 : Class Model.t * Env application :=
  fst (method 0 (Model.registerProxy (A := application) 7)
    (fst (Model.getInstance ({| instance := None; objects := [] |}, env0)))).

(** A model whose map holds proxy 5 under the name shapes. *)
Definition model5 : Model.t := {| Model.proxyMap := [("shapes", 5)] |}.

End Demo.

(** ** The proxy of the Model test *)

Module ModelTest.

(** [ModelTestProxy] of [spec/core/Model.test.ts].  The application state is
    the data of the proxy: the constructor passes the empty string, and the
    two hooks overwrite it with [setData]. *)
Definition NAME : string := "ModelTestProxy".
Definition ON_REGISTER_CALLED : string := "onRegister Called".
Definition ON_REMOVE_CALLED : string := "onRemove Called".

Definition onRegister (obj : Ref) (data : string) : string * Completion :=
  (ON_REGISTER_CALLED, Normal).

Definition onRemove (obj : Ref) (data : string) : string * Completion :=
  (ON_REMOVE_CALLED, Normal).

Definition application : Application :=
  Build_Application string
    (fun _ _ _ data => (data, Normal))
    (fun _ => "Mediator") (fun _ _ => []) (fun m => m)
    (fun _ => NAME) onRegister onRemove.

(** The environment right after [new ModelTestProxy()]. *)
Definition env0 : Env application := @Build_Env application "" [].

End ModelTest.

(** ** A Controller for the small application *)

Module DemoController.

(** The Controller is object 200 and its [executeCommand] function 300.  A
    command leaves the number of its class as a mark; class 9 throws after
    leaving it. *)
Definition execute (commandClass : Ref) (n : INotification) (a : list nat)
    : list nat * Completion :=
  (a ++ [commandClass],
   if Nat.eqb commandClass 9 then Throw "command failed" else Normal).

Definition commands : Controller.Commands (A := Demo.application) :=
  @Controller.Build_Commands Demo.application 200 300 execute.

Definition application : Application := Controller.withController commands.

(** The environment with command map [cm], application state [a] and trace
    [t]. *)
Definition env (cm : JsMap.t Ref) (a : list nat) (t : list Event) : Env application :=
  @Build_Env application ({| Controller.commandMap := cm |}, a) t.

(** A new View and a new Controller. *)
Definition start : View.t * Env application := (View.fresh, env [] [] []).

(** [view12] of the small application, and a new Controller. *)
Definition start12 : View.t * Env application := (Demo.view12, env [] [] []).

(** The program state after the registration of [o1] for N and then of
    command class 5 for N. *)
Definition state1 : View.t * Env application :=
  fst (Controller.perform commands (Controller.CallRegisterCommand "N" 5)
    (fst (Controller.perform commands
            (Controller.CallRegisterObserver "N" Demo.o1) start))).

End DemoController.

(** * Properties *)

(** ** [Map] laws *)

Module JsMapFacts.
Section Facts.
Context {V : Type}.
Implicit Types (m : JsMap.t V) (k : string) (v : V).

Lemma get_set_eq m k v : JsMap.get (JsMap.set m k v) k = Some v.
Proof.
  induction m as [|[k' v'] m IH]; simpl.
  - now rewrite String.eqb_refl.
  - destruct (String.eqb k' k) eqn:E; simpl; rewrite E; auto.
Qed.

Lemma get_set_ne m k k' v :
  k <> k' -> JsMap.get (JsMap.set m k v) k' = JsMap.get m k'.
Proof.
  intros Hne. induction m as [|[k0 v0] m IH]; simpl.
  - destruct (String.eqb_spec k k'); congruence.
  - destruct (String.eqb_spec k0 k) as [->|]; simpl.
    + destruct (String.eqb_spec k k'); congruence.
    + destruct (String.eqb_spec k0 k'); auto.
Qed.

Lemma get_delete_eq m k : JsMap.get (JsMap.delete m k) k = None.
Proof.
  induction m as [|[k' v'] m IH]; simpl; auto.
  destruct (String.eqb k' k) eqn:E; simpl; auto. now rewrite E.
Qed.

Lemma get_delete_ne m k k' :
  k <> k' -> JsMap.get (JsMap.delete m k) k' = JsMap.get m k'.
Proof.
  intros Hne. induction m as [|[k0 v0] m IH]; simpl; auto.
  destruct (String.eqb_spec k0 k) as [->|]; simpl.
  - destruct (String.eqb_spec k k'); congruence.
  - destruct (String.eqb_spec k0 k'); auto.
Qed.

Lemma has_set_eq m k v : JsMap.has (JsMap.set m k v) k = true.
Proof. unfold JsMap.has. now rewrite get_set_eq. Qed.

Lemma has_delete_eq m k : JsMap.has (JsMap.delete m k) k = false.
Proof. unfold JsMap.has. now rewrite get_delete_eq. Qed.

Lemma has_false_get m k : JsMap.has m k = false <-> JsMap.get m k = None.
Proof. unfold JsMap.has. destruct (JsMap.get m k); split; congruence. Qed.

Lemma get_Some_In m k v : JsMap.get m k = Some v -> In (k, v) m.
Proof.
  induction m as [|[k' v'] m IH]; simpl; [discriminate|].
  destruct (String.eqb_spec k' k) as [->|]; intros H.
  - left. congruence.
  - right. auto.
Qed.

Lemma get_None_keys m k : JsMap.get m k = None -> ~ In k (JsMap.keys m).
Proof.
  induction m as [|[k' v'] m IH]; simpl; [tauto|].
  destruct (String.eqb_spec k' k) as [->|]; [discriminate|].
  intros H [?|?]; [congruence | now apply IH].
Qed.

Lemma keys_delete m k k' :
  In k' (JsMap.keys (JsMap.delete m k)) -> In k' (JsMap.keys m) /\ k' <> k.
Proof.
  induction m as [|[k0 v0] m IH]; simpl; [tauto|].
  destruct (String.eqb_spec k0 k) as [->|]; simpl.
  - intros H. destruct (IH H). tauto.
  - intros [<-|H]; [tauto|]. destruct (IH H). tauto.
Qed.

Lemma keys_nil m : JsMap.keys m = [] -> m = [].
Proof. now destruct m. Qed.

(** A property of every stored value survives [set] and [delete]. *)
Lemma Forall_set (P : V -> Prop) m k v :
  Forall (fun kv => P (snd kv)) m -> P v ->
  Forall (fun kv => P (snd kv)) (JsMap.set m k v).
Proof.
  intros Hm Hv. induction Hm as [|[k' v'] m Hk Hm IH]; simpl.
  - repeat constructor. exact Hv.
  - destruct (String.eqb k' k); constructor; auto.
Qed.

Lemma Forall_delete (P : V -> Prop) m k :
  Forall (fun kv => P (snd kv)) m ->
  Forall (fun kv => P (snd kv)) (JsMap.delete m k).
Proof.
  intros Hm. induction Hm as [|[k' v'] m Hk Hm IH]; simpl; auto.
  destruct (String.eqb k' k); auto.
Qed.

End Facts.
End JsMapFacts.

(** ** Running a list of observers *)

Ltac unfold_bind := unfold mbind, M_bind, bind in *.

Ltac unfold_M :=
  unfold mbind, M_bind, bind, ret, throw, gets, modify, modifyFst, onSnd in *.

Section Dispatch.
Context {A : Application}.
Implicit Types (n : INotification) (e : Env A) (o : Observer).

Lemma env_eta e : {| app := app e; trace := trace e |} = e.
Proof. now destruct e. Qed.

Lemma notifyObserver_run {S} (s : S) o n e :
  onSnd (notifyObserver o n) (s, e) =
    ((s, {| app := fst (handler n o (app e));
            trace := trace e ++ [Notified o n] |}),
     match snd (handler n o (app e)) with
     | Normal => Ret tt
     | Throw err => Exn err
     end).
Proof.
  unfold onSnd, notifyObserver, invoke, handler; simpl.
  now destruct (call (notify o) (context o) n (app e)).
Qed.

Lemma forEach_notify_normal {S} (s : S) n os :
  forall e, all_normal n os (app e) ->
  forEach os (fun o => onSnd (notifyObserver o n)) (s, e) =
    ((s, {| app := handled n os (app e);
            trace := trace e ++ map (fun o => Notified o n) os |}), Ret tt).
Proof.
  induction os as [|o os IH]; intros e Hn; simpl.
  - unfold ret. now rewrite app_nil_r, env_eta.
  - destruct Hn as [Ho Hn]. unfold_bind.
    rewrite notifyObserver_run, Ho.
    rewrite IH by exact Hn. simpl.
    now rewrite <- app_assoc.
Qed.

Lemma forEach_notify_throw {S} (s : S) n pre o post err :
  forall e, all_normal n pre (app e) ->
  snd (handler n o (handled n pre (app e))) = Throw err ->
  forEach (pre ++ o :: post) (fun o => onSnd (notifyObserver o n)) (s, e) =
    ((s, {| app := fst (handler n o (handled n pre (app e)));
            trace := trace e ++ map (fun o => Notified o n) (pre ++ [o]) |}),
     Exn err).
Proof.
  induction pre as [|p pre IH]; intros e Hn Ho; simpl in *.
  - unfold_bind. now rewrite notifyObserver_run, Ho.
  - destruct Hn as [Hp Hn]. unfold_bind.
    rewrite notifyObserver_run, Hp.
    rewrite IH by assumption. simpl.
    now rewrite <- app_assoc.
Qed.

End Dispatch.

(** ** Dispatch *)

Section NotifyObservers.
Context {A : Application}.

(** The dispatch with callbacks that leave the View alone.
    [notifyObservers(n)] looks the observers up under [n.getName()].
    Without a list it returns at once and calls nothing.  With a list, and
    callbacks that complete normally, it calls [notifyObserver] of every
    entry once, with [n], in list order, each callback starting in the state
    the one before it left; and the list is in registration order, since
    [registerObserver] adds at the end. *)
Theorem notifyObservers_in_registration_order
    (this : View.t) (e : Env A) (n : INotification) :
  (JsMap.get (View.observerMap this) (getName n) = None ->
   View.notifyObservers n (this, e) = ((this, e), Ret tt))
  /\ (forall observers,
        JsMap.get (View.observerMap this) (getName n) = Some observers ->
        all_normal n observers (app e) ->
        View.notifyObservers n (this, e) =
          ((this, {| app := handled n observers (app e);
                     trace := trace e ++ map (fun o => Notified o n) observers |}),
           Ret tt))
  /\ (forall o,
        JsMap.get (View.observerMap (View.registerObserver (getName n) o this))
                  (getName n)
        = Some (default [] (JsMap.get (View.observerMap this) (getName n)) ++ [o])).
Proof.
  split; [|split].
  - intros Hnone. unfold View.notifyObservers. unfold_bind. unfold gets; simpl.
    now rewrite Hnone.
  - intros observers Hsome Hn. unfold View.notifyObservers. unfold_bind.
    unfold gets; simpl. rewrite Hsome.
    now apply forEach_notify_normal.
  - intros o. unfold View.registerObserver.
    destruct (JsMap.get (View.observerMap this) (getName n)) as [os|]; simpl;
      apply JsMapFacts.get_set_eq.
Qed.

(** C3. When the callback of the observer at some position of the list
    throws, after the ones before it completed normally, [notifyObservers]
    ends with that exception, the observers up to and including that position
    have been called once each, in order, and none of the ones after it. *)
Theorem notifyObservers_stops_at_throw
    (this : View.t) (e : Env A) (n : INotification)
    (pre : list Observer) (o : Observer) (post : list Observer) (err : Error) :
  JsMap.get (View.observerMap this) (getName n) = Some (pre ++ o :: post) ->
  all_normal n pre (app e) ->
  snd (handler n o (handled n pre (app e))) = Throw err ->
  View.notifyObservers n (this, e) =
    ((this, {| app := fst (handler n o (handled n pre (app e)));
               trace := trace e ++ map (fun o => Notified o n) (pre ++ [o]) |}),
     Exn err).
Proof.
  intros Hsome Hpre Ho. unfold View.notifyObservers. unfold_bind.
  unfold gets; simpl. rewrite Hsome.
  now apply forEach_notify_throw.
Qed.

End NotifyObservers.

Lemma notifyObservers_in_registration_order_witness :
  all_normal (A := Demo.application) (Demo.note "N") [Demo.o1; Demo.o2] []
  /\ View.notifyObservers (A := Demo.application) (Demo.note "N")
       (Demo.view12, Demo.env0)
     = ((Demo.view12,
         Demo.env [1; 2] [Notified Demo.o1 (Demo.note "N");
                          Notified Demo.o2 (Demo.note "N")]), Ret tt).
Proof.
  split.
  - simpl. auto.
  - apply (proj1 (proj2 (notifyObservers_in_registration_order
                           (A := Demo.application)
                           Demo.view12 Demo.env0 (Demo.note "N")))
             [Demo.o1; Demo.o2]).
    + reflexivity.
    + simpl. auto.
Defined.

Lemma notifyObservers_stops_at_throw_witness :
  View.notifyObservers (A := Demo.application) (Demo.note "N")
    (Demo.view192, Demo.env0)
  = ((Demo.view192,
      Demo.env [1; 9] [Notified Demo.o1 (Demo.note "N");
                       Notified Demo.o9 (Demo.note "N")]), Exn "boom").
Proof.
  apply (notifyObservers_stops_at_throw (A := Demo.application)
           Demo.view192 Demo.env0 (Demo.note "N")
           [Demo.o1] Demo.o9 [Demo.o2] "boom").
  - reflexivity.
  - simpl. auto.
  - reflexivity.
Defined.


(** ** Observer lists *)

Section ObserverLists.
Implicit Types (this : View.t) (o : Observer) (x y : string) (c : Ref).

Lemma observers_of_registerObserver this x o :
  JsMap.get (View.observerMap (View.registerObserver x o this)) x
  = Some (View.observers_of this x ++ [o]).
Proof.
  unfold View.registerObserver, View.observers_of.
  destruct (JsMap.get (View.observerMap this) x); simpl;
    apply JsMapFacts.get_set_eq.
Qed.

Lemma get_registerObserver_ne this x y o :
  x <> y ->
  JsMap.get (View.observerMap (View.registerObserver x o this)) y
  = JsMap.get (View.observerMap this) y.
Proof.
  intros Hne. unfold View.registerObserver.
  destruct (JsMap.get (View.observerMap this) x); simpl;
    now apply JsMapFacts.get_set_ne.
Qed.

Lemma mediatorMap_registerObserver this x o :
  View.mediatorMap (View.registerObserver x o this) = View.mediatorMap this.
Proof.
  unfold View.registerObserver.
  now destruct (JsMap.get (View.observerMap this) x).
Qed.

Lemma observers_of_removeObserver this x c :
  View.observers_of (View.removeObserver x c this) x
  = View.scanned (View.observers_of this x) c.
Proof.
  unfold View.removeObserver, View.observers_of.
  destruct (JsMap.get (View.observerMap this) x) as [os|] eqn:E; simpl.
  - unfold View.scanned.
    destruct (Nat.eqb_spec (length (View.removeObserver_loop os c (length os))) 0)
      as [H0|H0]; simpl.
    + rewrite JsMapFacts.get_delete_eq; simpl.
      symmetry. now apply length_zero_iff_nil.
    + now rewrite JsMapFacts.get_set_eq.
  - now rewrite E.
Qed.

Lemma get_removeObserver_ne this x y c :
  x <> y ->
  JsMap.get (View.observerMap (View.removeObserver x c this)) y
  = JsMap.get (View.observerMap this) y.
Proof.
  intros Hne. unfold View.removeObserver.
  destruct (JsMap.get (View.observerMap this) x) as [os|]; simpl; auto.
  destruct (Nat.eqb _ 0); simpl.
  - now apply JsMapFacts.get_delete_ne.
  - now apply JsMapFacts.get_set_ne.
Qed.

Lemma mediatorMap_removeObserver this x c :
  View.mediatorMap (View.removeObserver x c this) = View.mediatorMap this.
Proof.
  unfold View.removeObserver.
  destruct (JsMap.get (View.observerMap this) x); auto.
  now destruct (Nat.eqb _ 0).
Qed.

(** The scan from the end finds a matching last element at once. *)
Lemma scanned_last (os : list Observer) o c :
  compareNotifyContext o c = true ->
  View.scanned (os ++ [o]) c = os.
Proof.
  intros Hc. unfold View.scanned. rewrite length_app; simpl. rewrite Nat.add_1_r; simpl.
  rewrite lookup_app_r by lia. rewrite Nat.sub_diag; simpl. rewrite Hc.
  unfold splice1. rewrite take_app_length.
  rewrite drop_ge by (rewrite length_app; simpl; lia).
  apply app_nil_r.
Qed.

(** Nothing is removed when no observer below the start index matches. *)
Lemma removeObserver_loop_none (os : list Observer) c i :
  (forall j o, j < i -> os !! j = Some o -> compareNotifyContext o c = false) ->
  View.removeObserver_loop os c i = os.
Proof.
  induction i as [|i IH]; intros H; simpl; auto.
  destruct (os !! i) as [o|] eqn:E.
  - rewrite (H i o) by (auto; lia). apply IH. intros j o' Hj. apply H. lia.
  - apply IH. intros j o' Hj. apply H. lia.
Qed.

End ObserverLists.

(** ** Registering and removing a mediator, step by step *)

Section MediatorSteps.
Context {A : Application}.
Implicit Types (this : View.t) (e : Env A) (m : Ref).

Lemma forEach_modifyFst {S1 S2 X} (f : X -> S1 -> S1) (l : list X) :
  forall (s1 : S1) (s2 : S2),
  forEach l (fun x => modifyFst (f x)) (s1, s2)
  = ((fold_left (fun s x => f x s) l s1, s2), Ret tt).
Proof.
  induction l as [|x l IH]; intros s1 s2; simpl; auto.
  unfold_bind. unfold modifyFst at 1, modify; simpl. apply IH.
Qed.

Lemma mediatorMap_registered m l : forall this,
  View.mediatorMap (View.registered m l this) = View.mediatorMap this.
Proof.
  unfold View.registered.
  induction l as [|x l IH]; intros this; simpl; auto.
  rewrite IH. apply mediatorMap_registerObserver.
Qed.

Lemma mediatorMap_stripped m l : forall this,
  View.mediatorMap (View.stripped m l this) = View.mediatorMap this.
Proof.
  unfold View.stripped.
  induction l as [|x l IH]; intros this; simpl; auto.
  rewrite IH. apply mediatorMap_removeObserver.
Qed.

Lemma registerMediator_run this e m :
  View.hasMediator (getMediatorName m) this = false ->
  View.registerMediator m (this, e)
  = ((View.registered m (listNotificationInterests m (app e))
        (View.set_mediatorMap this
           (JsMap.set (View.mediatorMap this) (getMediatorName m) m)),
      {| app := fst (onRegister m (app e));
         trace := trace e ++ [OnRegister m] |}),
     match snd (onRegister m (app e)) with
     | Normal => Ret tt
     | Throw err => Exn err
     end).
Proof.
  intros Hfree. unfold View.hasMediator in Hfree.
  unfold View.registerMediator. unfold_bind. unfold gets at 1; simpl.
  rewrite Hfree. unfold modifyFst at 1, modify, gets; simpl.
  set (v := View.set_mediatorMap this _).
  assert (Hloop :
    (if Nat.ltb 0 (length (listNotificationInterests m (app e)))
     then forEach (listNotificationInterests m (app e))
            (fun interest => modifyFst (S2 := Env A)
               (View.registerObserver interest
                  (newObserver (handleNotification m) m)))
     else ret tt) (v, e)
    = ((View.registered m (listNotificationInterests m (app e)) v, e), Ret tt)).
  { destruct (listNotificationInterests m (app e)) as [|i l] eqn:E; simpl.
    - reflexivity.
    - apply (forEach_modifyFst
               (fun i => View.registerObserver i (newObserver (handleNotification m) m))
               (i :: l)). }
  unfold modifyFst, modify in Hloop |- *. cbv beta in Hloop |- *.
  rewrite Hloop.
  unfold onSnd, invoke; simpl.
  now destruct (onRegister m (app e)) as [a []].
Qed.

Lemma removeMediator_run this e name m :
  JsMap.get (View.mediatorMap this) name = Some m ->
  View.removeMediator name (this, e)
  = ((View.set_mediatorMap
        (View.stripped m (listNotificationInterests m (app e)) this)
        (JsMap.delete (View.mediatorMap this) name),
      {| app := fst (onRemove m (app e));
         trace := trace e ++ [OnRemove m] |}),
     match snd (onRemove m (app e)) with
     | Normal => Ret (Some m)
     | Throw err => Exn err
     end).
Proof.
  intros Hget.
  unfold View.removeMediator. unfold_bind. unfold gets at 1; simpl.
  rewrite Hget. unfold gets; simpl.
  rewrite (forEach_modifyFst (fun i => View.removeObserver i m)).
  unfold modifyFst, modify; simpl.
  fold (View.stripped m (listNotificationInterests m (app e)) this).
  rewrite mediatorMap_stripped.
  unfold onSnd, invoke; simpl.
  now destruct (onRemove m (app e)) as [a []].
Qed.

Lemma registerMediator_taken this e m :
  View.hasMediator (getMediatorName m) this = true ->
  View.registerMediator m (this, e) = ((this, e), Ret tt).
Proof.
  intros Htaken. unfold View.hasMediator in Htaken.
  unfold View.registerMediator. unfold_bind. unfold gets at 1; simpl.
  now rewrite Htaken.
Qed.

Lemma removeMediator_absent this e name :
  JsMap.get (View.mediatorMap this) name = None ->
  View.removeMediator name (this, e) = ((this, e), Ret None).
Proof.
  intros Hget.
  unfold View.removeMediator. unfold_bind. unfold gets at 1; simpl.
  now rewrite Hget.
Qed.

Lemma registerMediator_view this e m :
  View.hasMediator (getMediatorName m) this = false ->
  fst (fst (View.registerMediator m (this, e)))
  = View.registered m (listNotificationInterests m (app e))
      (View.set_mediatorMap this
         (JsMap.set (View.mediatorMap this) (getMediatorName m) m)).
Proof. intros H. now rewrite registerMediator_run. Qed.

Lemma registerMediator_stores this e m :
  View.hasMediator (getMediatorName m) this = false ->
  JsMap.get (View.mediatorMap (fst (fst (View.registerMediator m (this, e)))))
            (getMediatorName m) = Some m.
Proof.
  intros H. rewrite registerMediator_view by exact H.
  rewrite mediatorMap_registered; simpl.
  apply JsMapFacts.get_set_eq.
Qed.

Lemma registerMediator_has this e m :
  View.hasMediator (getMediatorName m)
    (fst (fst (View.registerMediator m (this, e)))) = true.
Proof.
  destruct (View.hasMediator (getMediatorName m) this) eqn:Hhas.
  - now rewrite registerMediator_taken.
  - unfold View.hasMediator, JsMap.has.
    now rewrite registerMediator_stores.
Qed.

End MediatorSteps.

(** ** A mediator's observer entries *)

Section MediatorEntries.
Context {A : Application}.
Implicit Types (this : View.t) (e : Env A) (m : Ref) (y : string).

Lemma observers_of_get this y os :
  JsMap.get (View.observerMap this) y = Some os -> View.observers_of this y = os.
Proof. unfold View.observers_of. now intros ->. Qed.

Lemma get_of_observers_of this y os :
  View.observers_of this y = os -> os <> [] ->
  JsMap.get (View.observerMap this) y = Some os.
Proof.
  unfold View.observers_of.
  destruct (JsMap.get (View.observerMap this) y); simpl; congruence.
Qed.

Lemma observers_of_registered m l : forall this y,
  View.observers_of (View.registered m l this) y
  = View.observers_of this y
    ++ repeat (View.mediatorObserver m) (count_occ string_dec l y).
Proof.
  unfold View.registered.
  induction l as [|x l IH]; intros this y; simpl.
  - now rewrite app_nil_r.
  - rewrite IH. destruct (string_dec x y) as [->|Hne].
    + rewrite (observers_of_get _ _ _ (observers_of_registerObserver this y _)).
      now rewrite <- app_assoc.
    + unfold View.observers_of.
      now rewrite get_registerObserver_ne.
Qed.

Lemma get_stripped_notin m l : forall this y,
  ~ In y l ->
  JsMap.get (View.observerMap (View.stripped m l this)) y
  = JsMap.get (View.observerMap this) y.
Proof.
  unfold View.stripped.
  induction l as [|x l IH]; intros this y Hy; simpl; auto.
  rewrite IH by (simpl in Hy; tauto).
  apply get_removeObserver_ne. simpl in Hy. tauto.
Qed.

Lemma observers_of_stripped m l : forall this y,
  View.observers_of (View.stripped m l this) y
  = Nat.iter (count_occ string_dec l y) (fun os => View.scanned os m)
      (View.observers_of this y).
Proof.
  unfold View.stripped.
  induction l as [|x l IH]; intros this y; simpl; auto.
  rewrite IH. destruct (string_dec x y) as [->|Hne].
  - rewrite observers_of_removeObserver. now rewrite Nat.iter_succ_r.
  - unfold View.observers_of.
    now rewrite get_removeObserver_ne.
Qed.

(** Scanning as often as the observer of [m] was added at the end takes
    every one of them off again. *)
Lemma scanned_repeat m (os : list Observer) k :
  Nat.iter k (fun os => View.scanned os m)
    (os ++ repeat (View.mediatorObserver m) k) = os.
Proof.
  induction k as [|k IH].
  - simpl. apply app_nil_r.
  - rewrite Nat.iter_succ_r.
    change (repeat (View.mediatorObserver m) (S k))
      with (View.mediatorObserver m :: repeat (View.mediatorObserver m) k).
    rewrite repeat_cons, app_assoc.
    rewrite scanned_last; [exact IH|].
    unfold compareNotifyContext, View.mediatorObserver; simpl.
    apply Nat.eqb_refl.
Qed.

(** Removal with the interests of registration gives every name the
    observers it had before. *)
Lemma observers_of_stripped_registered m l this y :
  View.observers_of (View.stripped m l (View.registered m l this)) y
  = View.observers_of this y.
Proof.
  rewrite observers_of_stripped, observers_of_registered.
  apply scanned_repeat.
Qed.

(** Whatever happens, a dispatch calls observers of the list, from its
    start. *)
Lemma forEach_notify_events {St} (s : St) n os : forall e,
  exists k,
    trace (snd (fst (forEach os (fun o => onSnd (notifyObserver o n)) (s, e))))
    = trace e ++ map (fun o => Notified o n) (take k os).
Proof.
  induction os as [|o os IH]; intros e; simpl.
  - exists 0. now rewrite app_nil_r.
  - unfold_bind. rewrite notifyObserver_run.
    destruct (snd (handler n o (app e))).
    + destruct (IH {| app := fst (handler n o (app e));
                      trace := trace e ++ [Notified o n] |}) as [k Hk].
      exists (S k). rewrite Hk; simpl. now rewrite <- app_assoc.
    + exists 1. simpl. now destruct os.
Qed.

Lemma events_during_notifyObservers this e n :
  exists k,
    events_during (View.notifyObservers n) (this, e)
    = map (fun o => Notified o n) (take k (View.observers_of this (getName n))).
Proof.
  unfold events_during, View.notifyObservers, View.observers_of.
  unfold_bind. unfold gets; simpl.
  destruct (JsMap.get (View.observerMap this) (getName n)) as [os|]; simpl.
  - destruct (forEach_notify_events this n os e) as [k Hk].
    exists k. rewrite Hk. apply drop_app_length.
  - exists 0. simpl. now rewrite drop_all.
Qed.

End MediatorEntries.

(** ** Mediators *)

Section Mediators.
Context {A : Application}.
Implicit Types (this : View.t) (e : Env A) (m : Ref).

Lemma In_take {X} (x : X) k (l : list X) : In x (take k l) -> In x l.
Proof.
  intros H. rewrite <- (take_drop k l). apply in_or_app. now left.
Qed.

(** C2, amended.  Let [m] be a mediator whose name is not in the mediator
    map, so that [registerMediator(m)] registers it, and whose observer
    ([m.handleNotification] bound to [m]) is not already in the lists of its
    interests.  When [removeMediator(m.getMediatorName())] follows, with
    [listNotificationInterests()] returning the list it returned at
    registration, the call returns [m] (its [onRemove] hook completing
    normally; a throw of the hook is the outcome otherwise), [hasMediator] is
    false afterwards, and a [notifyObservers] of a notification named by one
    of the interests does not call the observer of [m], in whatever
    environment it runs. *)
Theorem removeMediator_undoes_registerMediator this e m (e1 : Env A) :
  let name := getMediatorName m in
  let interests := listNotificationInterests m (app e) in
  let v1 := fst (fst (View.registerMediator m (this, e))) in
  let s2 := View.removeMediator name (v1, e1) in
  View.hasMediator name this = false ->
  listNotificationInterests m (app e1) = interests ->
  (forall x, In x interests ->
     ~ In (View.mediatorObserver m) (View.observers_of this x)) ->
  snd s2 = match snd (onRemove m (app e1)) with
           | Normal => Ret (Some m)
           | Throw err => Exn err
           end
  /\ View.hasMediator name (fst (fst s2)) = false
  /\ (forall (n : INotification) (e2 : Env A) (n' : INotification),
        In (getName n) interests ->
        ~ In (Notified (View.mediatorObserver m) n')
             (events_during (View.notifyObservers n) (fst (fst s2), e2))).
Proof.
  intros name interests v1 s2 Hfree Hsame Hfresh.
  assert (Hstored : JsMap.get (View.mediatorMap v1) name = Some m)
    by now apply registerMediator_stores.
  subst s2. rewrite (removeMediator_run v1 e1 name m Hstored); simpl.
  rewrite Hsame. split; [reflexivity|]. split.
  - unfold View.hasMediator; simpl. apply JsMapFacts.has_delete_eq.
  - intros n e2 n' Hn Hin.
    destruct (events_during_notifyObservers
                (View.set_mediatorMap (View.stripped m interests v1)
                   (JsMap.delete (View.mediatorMap v1) name)) e2 n) as [k Hk].
    rewrite Hk in Hin. apply in_map_iff in Hin as [o [Ho Hin]].
    injection Ho as -> _. apply In_take in Hin.
    apply (Hfresh (getName n) Hn).
    change (View.observers_of (View.set_mediatorMap ?v ?mm) ?y)
      with (View.observers_of v y) in Hin.
    subst v1. rewrite registerMediator_view in Hin by exact Hfree.
    fold interests in Hin.
    now rewrite observers_of_stripped_registered in Hin.
Qed.

(** C5. [removeMediator] strips the observer entries named by the list that
    [listNotificationInterests()] of the registered mediator returns when the
    removal runs: the observer map afterwards is the one that
    [removeObserver(i, m)] leaves for each [i] of that list, so that a name of
    the list loses one observer with context [m] per occurrence, scanned from
    the end, and every name outside the list keeps its entry as it was,
    whatever was registered under it. *)
Theorem removeMediator_requeries_interests this e (name : string) m :
  JsMap.get (View.mediatorMap this) name = Some m ->
  let interests := listNotificationInterests m (app e) in
  let v2 := fst (fst (View.removeMediator name (this, e))) in
  View.observerMap v2 = View.observerMap (View.stripped m interests this)
  /\ (forall x, In x interests ->
        View.observers_of v2 x
        = Nat.iter (count_occ string_dec interests x)
            (fun os => View.scanned os m) (View.observers_of this x))
  /\ (forall x, ~ In x interests ->
        JsMap.get (View.observerMap v2) x = JsMap.get (View.observerMap this) x).
Proof.
  intros Hstored interests v2.
  assert (Hv2 : View.observerMap v2
                = View.observerMap (View.stripped m interests this)).
  { subst v2. now rewrite (removeMediator_run this e name m Hstored). }
  split; [exact Hv2|]. split.
  - intros x _. unfold View.observers_of at 1. rewrite Hv2.
    apply observers_of_stripped.
  - intros x Hx. rewrite Hv2. now apply get_stripped_notin.
Qed.

(** A name that the mediator reported when it was registered and does not
    report when it is removed keeps the observer of the mediator. *)
Lemma stale_observer_entry_remains this e m (e1 : Env A) :
  let name := getMediatorName m in
  let v1 := fst (fst (View.registerMediator m (this, e))) in
  let v2 := fst (fst (View.removeMediator name (v1, e1))) in
  View.hasMediator name this = false ->
  forall x, In x (listNotificationInterests m (app e)) ->
    ~ In x (listNotificationInterests m (app e1)) ->
    exists os, JsMap.get (View.observerMap v2) x = Some os
               /\ In (View.mediatorObserver m) os.
Proof.
  intros name v1 v2 Hfree x Hold Hnew.
  assert (Hstored : JsMap.get (View.mediatorMap v1) name = Some m)
    by now apply registerMediator_stores.
  assert (Hkeep : JsMap.get (View.observerMap v2) x
                  = JsMap.get (View.observerMap v1) x).
  { subst v2. rewrite (removeMediator_run v1 e1 name m Hstored); simpl.
    now apply get_stripped_notin. }
  exists (View.observers_of v1 x).
  assert (Hobs : View.observers_of v1 x
    = View.observers_of this x
      ++ repeat (View.mediatorObserver m)
           (count_occ string_dec (listNotificationInterests m (app e)) x)).
  { subst v1. rewrite registerMediator_view by exact Hfree.
    now rewrite observers_of_registered. }
  apply (count_occ_In string_dec) in Hold.
  destruct (count_occ string_dec (listNotificationInterests m (app e)) x)
    as [|k] eqn:Ek; [lia|].
  split.
  - rewrite Hkeep.
    apply get_of_observers_of; [reflexivity|].
    rewrite Hobs. simpl. now destruct (View.observers_of this x).
  - rewrite Hobs. apply in_or_app. right. now left.
Qed.

(** C6. [registerMediator(m)] with the name of [m] already in the mediator
    map returns normally and changes nothing: not the mediator map, not an
    observer list, not the application state, and no call into application
    code is made. *)
Theorem registerMediator_taken_name_is_noop this e m :
  View.hasMediator (getMediatorName m) this = true ->
  View.registerMediator m (this, e) = ((this, e), Ret tt)
  /\ events_during (View.registerMediator m) (this, e) = [].
Proof.
  intros Htaken.
  pose proof (registerMediator_taken this e m Htaken) as Hrun.
  split; [exact Hrun|].
  unfold events_during. rewrite Hrun; simpl. apply drop_all.
Qed.

End Mediators.

Lemma removeMediator_undoes_registerMediator_witness :
  View.hasMediator "A" Demo.view12X = false
  /\ snd (View.removeMediator (A := Demo.application) "A"
            (fst (fst (View.registerMediator (A := Demo.application) 1
                         (Demo.view12X, Demo.env0))), Demo.env [1] []))
     = Ret (Some 1).
Proof.
  split; [reflexivity|].
  apply (removeMediator_undoes_registerMediator (A := Demo.application)
           Demo.view12X Demo.env0 1 (Demo.env [1] [])).
  - reflexivity.
  - reflexivity.
  - intros x [<-|[<-|[]]]; simpl.
    + intros [H|[]]. discriminate H.
    + tauto.
Defined.

(** C2 as stated, for every mediator, fails in two situations.  When
    another mediator holds the name, [registerMediator(m)] does nothing and
    [removeMediator] returns the other mediator: here mediators 1 and 2 are
    both named A, 1 is registered, and the removal after
    [registerMediator(2)] returns 1.  When the observer of [m] was also
    registered by hand, the removal takes one of the two away and a dispatch
    still calls the other: here the observer of mediator 1 is registered for
    X before mediator 1 is, and a notification X after the removal calls
    it. *)
Lemma removeMediator_undoes_registerMediator_counterexample :
  (Demo.listNotificationInterests 2 (app Demo.env0)
   = Demo.listNotificationInterests 2
       (app (snd (fst (View.registerMediator (A := Demo.application) 2
                         (Demo.view_with_1, Demo.env0)))))
   /\ snd (View.removeMediator (A := Demo.application) "A"
             (fst (View.registerMediator (A := Demo.application) 2
                     (Demo.view_with_1, Demo.env0))))
      = Ret (Some 1)
   /\ snd (View.removeMediator (A := Demo.application) "A"
             (fst (View.registerMediator (A := Demo.application) 2
                     (Demo.view_with_1, Demo.env0))))
      <> Ret (Some 2))
  /\
  (View.hasMediator "A" Demo.view_observing_1 = false
   /\ snd (View.removeMediator (A := Demo.application) "A"
             (fst (View.registerMediator (A := Demo.application) 1
                     (Demo.view_observing_1, Demo.env0))))
      = Ret (Some 1)
   /\ In (Notified (View.mediatorObserver (A := Demo.application) 1)
                   (Demo.note "X"))
         (events_during
            (View.notifyObservers (A := Demo.application) (Demo.note "X"))
            (fst (View.removeMediator (A := Demo.application) "A"
                    (fst (View.registerMediator (A := Demo.application) 1
                            (Demo.view_observing_1, Demo.env0))))))).
Proof.
  split.
  - split; [reflexivity|]. split; [reflexivity|]. discriminate.
  - split; [reflexivity|]. split; [reflexivity|]. simpl. now left.
Qed.

Lemma removeMediator_requeries_interests_witness :
  JsMap.get (View.mediatorMap Demo.view_with_3) "B" = Some 3
  /\ JsMap.get
       (View.observerMap
          (fst (fst (View.removeMediator (A := Demo.application) "B"
                       (Demo.view_with_3, Demo.env [3] []))))) "Y"
     = Some [View.mediatorObserver (A := Demo.application) 3].
Proof.
  split; [reflexivity|].
  refine (eq_trans
    (proj2 (proj2 (removeMediator_requeries_interests (A := Demo.application)
                     Demo.view_with_3 (Demo.env [3] []) "B" 3 _)) "Y" _) _).
  - reflexivity.
  - simpl. intros [H|[]]. discriminate H.
  - reflexivity.
Defined.

Lemma registerMediator_taken_name_is_noop_witness :
  View.hasMediator "A" Demo.view_with_1 = true
  /\ View.registerMediator (A := Demo.application) 2
       (Demo.view_with_1, Demo.env0)
     = ((Demo.view_with_1, Demo.env0), Ret tt).
Proof.
  split; [reflexivity|].
  apply (registerMediator_taken_name_is_noop (A := Demo.application)
           Demo.view_with_1 Demo.env0 2).
  reflexivity.
Defined.

(** ** Proxies *)

Section Proxies.
Context {A : Application}.
Implicit Types (this : Model.t) (e : Env A) (p : Ref).

Lemma registerProxy_run this e p :
  Model.registerProxy p (this, e)
  = (({| Model.proxyMap :=
           JsMap.set (Model.proxyMap this) (getProxyName p) p |},
      {| app := fst (onRegister p (app e));
         trace := trace e ++ [OnRegister p] |}),
     match snd (onRegister p (app e)) with
     | Normal => Ret tt
     | Throw err => Exn err
     end).
Proof.
  unfold Model.registerProxy. unfold_bind.
  unfold modifyFst, modify, onSnd, invoke; simpl.
  now destruct (onRegister p (app e)) as [a []].
Qed.

Lemma removeProxy_run this e name p :
  JsMap.get (Model.proxyMap this) name = Some p ->
  Model.removeProxy name (this, e)
  = (({| Model.proxyMap := JsMap.delete (Model.proxyMap this) name |},
      {| app := fst (onRemove p (app e));
         trace := trace e ++ [OnRemove p] |}),
     match snd (onRemove p (app e)) with
     | Normal => Ret (Some p)
     | Throw err => Exn err
     end).
Proof.
  intros Hget. unfold Model.removeProxy. unfold_bind.
  unfold gets at 1; simpl. rewrite Hget.
  unfold modifyFst, modify, onSnd, invoke; simpl.
  now destruct (onRemove p (app e)) as [a []].
Qed.

Lemma removeProxy_absent this e name :
  JsMap.get (Model.proxyMap this) name = None ->
  Model.removeProxy name (this, e) = ((this, e), Ret None).
Proof.
  intros Hget. unfold Model.removeProxy. unfold_bind.
  unfold gets at 1; simpl. now rewrite Hget.
Qed.

(** C7, amended.  After [registerProxy(p)], [hasProxy] of the name of [p] is
    true and [retrieveProxy] returns the reference [p] itself.  The Model
    writes nothing of the application state, where the data of [p] lives:
    after the call that state is the one the [onRegister] hook of [p] left.
    A [removeProxy] of the name then returns [p] (its [onRemove] hook
    completing normally; a throw of the hook is the outcome otherwise), and
    afterwards [hasProxy] is false and [retrieveProxy] returns the absent
    result. *)
Theorem proxy_register_retrieve_remove this e p (e1 : Env A) :
  let name := getProxyName p in
  let s1 := Model.registerProxy p (this, e) in
  let s2 := Model.removeProxy name (fst (fst s1), e1) in
  (Model.hasProxy name (fst (fst s1)) = true
   /\ Model.retrieveProxy name (fst (fst s1)) = Some p
   /\ app (snd (fst s1)) = fst (onRegister p (app e)))
  /\ (snd s2 = match snd (onRemove p (app e1)) with
               | Normal => Ret (Some p)
               | Throw err => Exn err
               end
      /\ Model.hasProxy name (fst (fst s2)) = false
      /\ Model.retrieveProxy name (fst (fst s2)) = None
      /\ app (snd (fst s2)) = fst (onRemove p (app e1))).
Proof.
  intros name s1 s2. subst s2 s1. rewrite registerProxy_run; simpl.
  split.
  - unfold Model.hasProxy, Model.retrieveProxy; simpl.
    rewrite JsMapFacts.has_set_eq, JsMapFacts.get_set_eq. auto.
  - rewrite (removeProxy_run _ e1 name p) by apply JsMapFacts.get_set_eq.
    unfold Model.hasProxy, Model.retrieveProxy; simpl.
    rewrite JsMapFacts.has_delete_eq, JsMapFacts.get_delete_eq. auto.
Qed.

(** C10. [registerProxy] does not reject a name that is taken: after
    [registerProxy(p1)] and then [registerProxy(p2)] with the same name,
    [retrieveProxy] of the name returns [p2], and the second call makes one
    call into application code, the [onRegister] hook of [p2]; the
    [onRemove] hook of [p1] is not called.  [registerMediator] does reject
    it: after [registerMediator(m1)], a [registerMediator(m2)] with the same
    name changes nothing. *)
Theorem registerProxy_replaces this e p1 p2 (e1 : Env A) :
  getProxyName p1 = getProxyName p2 ->
  let v1 := fst (fst (Model.registerProxy p1 (this, e))) in
  let s2 := Model.registerProxy p2 (v1, e1) in
  Model.retrieveProxy (getProxyName p1) v1 = Some p1
  /\ Model.retrieveProxy (getProxyName p1) (fst (fst s2)) = Some p2
  /\ events_during (Model.registerProxy p2) (v1, e1) = [OnRegister p2]
  /\ (forall (view : View.t) (m1 m2 : Ref),
        getMediatorName m1 = getMediatorName m2 ->
        let w1 := fst (fst (View.registerMediator m1 (view, e))) in
        View.registerMediator m2 (w1, e1) = ((w1, e1), Ret tt)).
Proof.
  intros Hname v1 s2. subst s2 v1.
  unfold events_during. rewrite !registerProxy_run; simpl.
  unfold Model.retrieveProxy; simpl. rewrite Hname.
  rewrite !JsMapFacts.get_set_eq.
  repeat split.
  - apply drop_app_length.
  - intros view m1 m2 Hm. cbv zeta. apply registerMediator_taken.
    rewrite <- Hm. apply registerMediator_has.
Qed.

End Proxies.

(** C7 as stated, for every proxy, fails for a proxy whose [onRegister]
    hook writes its data, as that of [ModelTestProxy] does: [registerProxy]
    calls the hook, and the proxy that [retrieveProxy] returns holds the data
    the hook wrote, not the data it was registered with. *)
Lemma proxy_register_retrieve_remove_counterexample :
  Model.retrieveProxy ModelTest.NAME
    (fst (fst (Model.registerProxy (A := ModelTest.application) 1
                 (Model.fresh, ModelTest.env0)))) = Some 1
  /\ app ModelTest.env0 = ""
  /\ app (snd (fst (Model.registerProxy (A := ModelTest.application) 1
                      (Model.fresh, ModelTest.env0))))
     = "onRegister Called"
  /\ app (snd (fst (Model.registerProxy (A := ModelTest.application) 1
                      (Model.fresh, ModelTest.env0))))
     <> app ModelTest.env0.
Proof.
  split; [reflexivity|]. split; [reflexivity|]. split; [reflexivity|].
  discriminate.
Qed.

Lemma registerProxy_replaces_witness :
  Demo.getProxyName 5 = Demo.getProxyName 6
  /\ Model.retrieveProxy "colors"
       (fst (fst (Model.registerProxy (A := Demo.application) 6
          (fst (fst (Model.registerProxy (A := Demo.application) 5
                       (Model.fresh, Demo.env0))), Demo.env [5] []))))
     = Some 6.
Proof.
  split; [reflexivity|].
  apply (registerProxy_replaces (A := Demo.application)
           Model.fresh Demo.env0 5 6 (Demo.env [5] [])).
  reflexivity.
Defined.

(** ** The singletons *)

Section Singletons.
Context {A : Application}.

Lemma In_delete {V} (m : JsMap.t V) k k' (v : V) :
  In (k', v) (JsMap.delete m k) -> In (k', v) m.
Proof.
  induction m as [|[k0 v0] m IH]; simpl; auto.
  destruct (String.eqb k0 k); simpl; intuition.
Qed.

Lemma method_run {O T} (this : Ref) (body : M (O * Env A) T)
    (cls : Class O) (e : Env A) (o : O) :
  objects cls !! this = Some o ->
  method this body (cls, e)
  = (({| instance := instance cls;
         objects := <[this := fst (fst (body (o, e)))]> (objects cls) |},
      snd (fst (body (o, e)))),
     snd (body (o, e))).
Proof.
  intros Ho. unfold method; simpl. rewrite Ho.
  now destruct (body (o, e)) as [[o' e'] r].
Qed.

(** Removing the mediators of every key, with hooks that complete normally,
    returns normally and leaves no mediator. *)
Lemma View_dispose_loop (names : list string) : forall (v : View.t) (e : Env A),
  (forall k, In k (JsMap.keys (View.mediatorMap v)) -> In k names) ->
  (forall k m a, In (k, m) (View.mediatorMap v) -> snd (onRemove m a) = Normal) ->
  exists v' e',
    forEach names (fun name => View.removeMediator name;; ret tt) (v, e)
    = ((v', e'), Ret tt)
    /\ View.mediatorMap v' = [].
Proof.
  induction names as [|name names IH]; intros v e Hkeys Hhooks; simpl.
  - exists v, e. split; [reflexivity|].
    apply JsMapFacts.keys_nil.
    destruct (JsMap.keys (View.mediatorMap v)) as [|k ks]; [reflexivity|].
    destruct (Hkeys k). now left.
  - unfold_bind.
    destruct (JsMap.get (View.mediatorMap v) name) as [m|] eqn:Hget.
    + rewrite (removeMediator_run v e name m Hget).
      rewrite (Hhooks name m) by now apply JsMapFacts.get_Some_In.
      unfold ret at 1.
      apply IH; simpl.
      * intros k Hk. apply JsMapFacts.keys_delete in Hk as [Hk Hne].
        destruct (Hkeys k Hk); [congruence|assumption].
      * intros k m' a Hin. apply (Hhooks k). now apply In_delete in Hin.
    + rewrite (removeMediator_absent v e name Hget). unfold ret at 1.
      apply IH; [|exact Hhooks].
      intros k Hk. destruct (Hkeys k Hk) as [<-|]; [|assumption].
      now apply JsMapFacts.get_None_keys in Hget.
Qed.

Lemma Model_dispose_loop (names : list string) : forall (v : Model.t) (e : Env A),
  (forall k, In k (JsMap.keys (Model.proxyMap v)) -> In k names) ->
  (forall k p a, In (k, p) (Model.proxyMap v) -> snd (onRemove p a) = Normal) ->
  exists v' e',
    forEach names (fun name => Model.removeProxy name;; ret tt) (v, e)
    = ((v', e'), Ret tt)
    /\ Model.proxyMap v' = [].
Proof.
  induction names as [|name names IH]; intros v e Hkeys Hhooks; simpl.
  - exists v, e. split; [reflexivity|].
    apply JsMapFacts.keys_nil.
    destruct (JsMap.keys (Model.proxyMap v)) as [|k ks]; [reflexivity|].
    destruct (Hkeys k). now left.
  - unfold_bind.
    destruct (JsMap.get (Model.proxyMap v) name) as [p|] eqn:Hget.
    + rewrite (removeProxy_run v e name p Hget).
      rewrite (Hhooks name p) by now apply JsMapFacts.get_Some_In.
      unfold ret at 1.
      apply IH; simpl.
      * intros k Hk. apply JsMapFacts.keys_delete in Hk as [Hk Hne].
        destruct (Hkeys k Hk); [congruence|assumption].
      * intros k p' a Hin. apply (Hhooks k). now apply In_delete in Hin.
    + rewrite (removeProxy_absent v e name Hget). unfold ret at 1.
      apply IH; [|exact Hhooks].
      intros k Hk. destruct (Hkeys k Hk) as [<-|]; [|assumption].
      now apply JsMapFacts.get_None_keys in Hget.
Qed.

Lemma View_dispose_run (cls : Class View.t) (e : Env A) (this : Ref) (v : View.t) :
  objects cls !! this = Some v ->
  (forall k m a, In (k, m) (View.mediatorMap v) -> snd (onRemove m a) = Normal) ->
  exists v' e',
    View.dispose this (cls, e)
    = (({| instance := None; objects := <[this := v']> (objects cls) |}, e'),
       Ret tt)
    /\ View.mediatorMap v' = [].
Proof.
  intros Ho Hhooks.
  destruct (View_dispose_loop (JsMap.keys (View.mediatorMap v)) v e
              (fun k H => H) Hhooks) as (v' & e' & Hrun & Hempty).
  exists v', e'. split; [|exact Hempty].
  unfold View.dispose. unfold_bind.
  rewrite (method_run this _ cls e v Ho).
  unfold gets at 1 2 3; simpl. rewrite Hrun; simpl.
  reflexivity.
Qed.

Lemma Model_dispose_run (cls : Class Model.t) (e : Env A) (this : Ref) (v : Model.t) :
  objects cls !! this = Some v ->
  (forall k p a, In (k, p) (Model.proxyMap v) -> snd (onRemove p a) = Normal) ->
  exists v' e',
    Model.dispose this (cls, e)
    = (({| instance := None; objects := <[this := v']> (objects cls) |}, e'),
       Ret tt)
    /\ Model.proxyMap v' = [].
Proof.
  intros Ho Hhooks.
  destruct (Model_dispose_loop (JsMap.keys (Model.proxyMap v)) v e
              (fun k H => H) Hhooks) as (v' & e' & Hrun & Hempty).
  exists v', e'. split; [|exact Hempty].
  unfold Model.dispose. unfold_bind.
  rewrite (method_run this _ cls e v Ho).
  unfold gets at 1 2 3; simpl. rewrite Hrun; simpl.
  reflexivity.
Qed.

(** [getInstance()] without an instance constructs one: a new object with
    empty maps, under the next free reference. *)
Lemma View_getInstance_fresh (cls : Class View.t) (e : Env A) :
  instance cls = None ->
  View.getInstance (cls, e)
  = (({| instance := Some (length (objects cls));
         objects := objects cls ++ [View.fresh] |}, e),
     Ret (length (objects cls))).
Proof.
  intros Hnone. unfold View.getInstance, View.constructor. unfold_M; simpl.
  rewrite Hnone; simpl. now rewrite Hnone.
Qed.

Lemma Model_getInstance_fresh (cls : Class Model.t) (e : Env A) :
  instance cls = None ->
  Model.getInstance (cls, e)
  = (({| instance := Some (length (objects cls));
         objects := objects cls ++ [Model.fresh] |}, e),
     Ret (length (objects cls))).
Proof.
  intros Hnone. unfold Model.getInstance, Model.constructor. unfold_M; simpl.
  rewrite Hnone; simpl. now rewrite Hnone.
Qed.

(** C8. With the singleton instance in place, the constructor of [View] and
    the constructor of [Model] throw their error and change nothing: the
    static field, the objects and their registries, and the environment are
    as before. *)
Theorem constructor_throws_when_instance_exists
    (view : Class View.t) (model : Class Model.t) (e : Env A) :
  (forall v : Ref, instance view = Some v ->
     View.constructor (view, e)
     = ((view, e), Exn "View singleton already constructed!"))
  /\ (forall m : Ref, instance model = Some m ->
        Model.constructor (model, e)
        = ((model, e), Exn "Model singleton already constructed!")).
Proof.
  split.
  - intros v Hv. unfold View.constructor. unfold_bind. unfold gets; simpl.
    now rewrite Hv.
  - intros m Hm. unfold Model.constructor. unfold_bind. unfold gets; simpl.
    now rewrite Hm.
Qed.

Lemma View_dispose_twice (cls : Class View.t) (e : Env A) (this : Ref) (v : View.t) :
  objects cls !! this = Some v ->
  (forall k m a, In (k, m) (View.mediatorMap v) -> snd (onRemove m a) = Normal) ->
  let s1 := View.dispose this (cls, e) in
  let s2 := View.dispose this (fst s1) in
  let s3 := View.getInstance (fst s2) in
  let this' := length (objects cls) in
  snd s1 = Ret tt /\ snd s2 = Ret tt /\ fst s2 = fst s1
  /\ snd s3 = Ret this' /\ this' <> this
  /\ instance (fst (fst s3)) = Some this'
  /\ objects (fst (fst s3)) !! this' = Some View.fresh.
Proof.
  intros Ho Hhooks.
  destruct (View_dispose_run cls e this v Ho Hhooks) as (v' & e' & Hrun & Hempty).
  assert (Hlt : this < length (objects cls)) by now apply lookup_lt_Some in Ho.
  cbv zeta. rewrite Hrun; cbn [fst snd].
  assert (Hagain : View.dispose this
            ({| instance := None; objects := <[this := v']> (objects cls) |}, e')
          = (({| instance := None; objects := <[this := v']> (objects cls) |}, e'),
             Ret tt)).
  { destruct (View_dispose_run
                {| instance := None; objects := <[this := v']> (objects cls) |}
                e' this v') as (v'' & e'' & Hrun2 & _).
    - simpl. now apply list_lookup_insert_eq.
    - rewrite Hempty. intros k m a [].
    - revert Hrun2. unfold View.dispose. unfold_bind.
      rewrite (method_run this _ _ e' v')
        by (simpl; now apply list_lookup_insert_eq).
      unfold gets; simpl. rewrite Hempty; simpl.
      now rewrite list_insert_insert_eq. }
  rewrite Hagain; cbn [fst snd].
  rewrite View_getInstance_fresh by reflexivity; cbn [fst snd instance objects].
  rewrite length_insert.
  repeat split; try lia.
  rewrite lookup_app_r by (rewrite length_insert; lia).
  now rewrite length_insert, Nat.sub_diag.
Qed.

Lemma Model_dispose_twice (cls : Class Model.t) (e : Env A) (this : Ref) (v : Model.t) :
  objects cls !! this = Some v ->
  (forall k p a, In (k, p) (Model.proxyMap v) -> snd (onRemove p a) = Normal) ->
  let s1 := Model.dispose this (cls, e) in
  let s2 := Model.dispose this (fst s1) in
  let s3 := Model.getInstance (fst s2) in
  let this' := length (objects cls) in
  snd s1 = Ret tt /\ snd s2 = Ret tt /\ fst s2 = fst s1
  /\ snd s3 = Ret this' /\ this' <> this
  /\ instance (fst (fst s3)) = Some this'
  /\ objects (fst (fst s3)) !! this' = Some Model.fresh.
Proof.
  intros Ho Hhooks.
  destruct (Model_dispose_run cls e this v Ho Hhooks) as (v' & e' & Hrun & Hempty).
  assert (Hlt : this < length (objects cls)) by now apply lookup_lt_Some in Ho.
  cbv zeta. rewrite Hrun; cbn [fst snd].
  assert (Hagain : Model.dispose this
            ({| instance := None; objects := <[this := v']> (objects cls) |}, e')
          = (({| instance := None; objects := <[this := v']> (objects cls) |}, e'),
             Ret tt)).
  { destruct (Model_dispose_run
                {| instance := None; objects := <[this := v']> (objects cls) |}
                e' this v') as (v'' & e'' & Hrun2 & _).
    - simpl. now apply list_lookup_insert_eq.
    - rewrite Hempty. intros k m a [].
    - revert Hrun2. unfold Model.dispose. unfold_bind.
      rewrite (method_run this _ _ e' v')
        by (simpl; now apply list_lookup_insert_eq).
      unfold gets; simpl. rewrite Hempty; simpl.
      now rewrite list_insert_insert_eq. }
  rewrite Hagain; cbn [fst snd].
  rewrite Model_getInstance_fresh by reflexivity; cbn [fst snd instance objects].
  rewrite length_insert.
  repeat split; try lia.
  rewrite lookup_app_r by (rewrite length_insert; lia).
  now rewrite length_insert, Nat.sub_diag.
Qed.

(** C9, amended.  [dispose()] on the singleton, with [onRemove] hooks that
    complete normally, returns normally; a second [dispose()] right after it
    returns normally too and changes nothing; and [getInstance()] then
    constructs an instance: a new object, with empty maps, that the static
    field holds.  This holds of [View] and of [Model]. *)
Theorem dispose_twice_then_getInstance
    (view : Class View.t) (model : Class Model.t) (e : Env A) :
  (forall (this : Ref) (v : View.t),
     instance view = Some this -> objects view !! this = Some v ->
     (forall k m a, In (k, m) (View.mediatorMap v) ->
                    snd (onRemove m a) = Normal) ->
     let s1 := View.dispose this (view, e) in
     let s2 := View.dispose this (fst s1) in
     let s3 := View.getInstance (fst s2) in
     let this' := length (objects view) in
     snd s1 = Ret tt /\ snd s2 = Ret tt /\ fst s2 = fst s1
     /\ snd s3 = Ret this' /\ this' <> this
     /\ instance (fst (fst s3)) = Some this'
     /\ objects (fst (fst s3)) !! this' = Some View.fresh)
  /\
  (forall (this : Ref) (v : Model.t),
     instance model = Some this -> objects model !! this = Some v ->
     (forall k p a, In (k, p) (Model.proxyMap v) ->
                    snd (onRemove p a) = Normal) ->
     let s1 := Model.dispose this (model, e) in
     let s2 := Model.dispose this (fst s1) in
     let s3 := Model.getInstance (fst s2) in
     let this' := length (objects model) in
     snd s1 = Ret tt /\ snd s2 = Ret tt /\ fst s2 = fst s1
     /\ snd s3 = Ret this' /\ this' <> this
     /\ instance (fst (fst s3)) = Some this'
     /\ objects (fst (fst s3)) !! this' = Some Model.fresh).
Proof.
  split.
  - intros this v _ Hv Hhooks. now apply (View_dispose_twice view e this v).
  - intros this v _ Hv Hhooks. now apply (Model_dispose_twice model e this v).
Qed.

End Singletons.

Lemma constructor_throws_when_instance_exists_witness :
  (instance Demo.views1 = Some 0
   /\ View.constructor (A := Demo.application) (Demo.views1, Demo.env0)
      = ((Demo.views1, Demo.env0), Exn "View singleton already constructed!"))
  /\ (instance Demo.models1 = Some 0
      /\ Model.constructor (A := Demo.application) (Demo.models1, Demo.env0)
         = ((Demo.models1, Demo.env0),
            Exn "Model singleton already constructed!")).
Proof.
  split; (split; [reflexivity|]).
  - apply (proj1 (constructor_throws_when_instance_exists
                    (A := Demo.application)
                    Demo.views1 Demo.models1 Demo.env0) 0).
    reflexivity.
  - apply (proj2 (constructor_throws_when_instance_exists
                    (A := Demo.application)
                    Demo.views1 Demo.models1 Demo.env0) 0).
    reflexivity.
Defined.

Lemma dispose_twice_then_getInstance_witness :
  (instance Demo.views1 = Some 0
   /\ snd (View.dispose (A := Demo.application) 0
             (fst (View.dispose (A := Demo.application) 0
                     (Demo.views1, Demo.env0)))) = Ret tt)
  /\ (instance Demo.models1 = Some 0
      /\ snd (Model.dispose (A := Demo.application) 0
                (fst (Model.dispose (A := Demo.application) 0
                        (Demo.models1, Demo.env0)))) = Ret tt).
Proof.
  split; (split; [reflexivity|]).
  - eapply (proj1 (dispose_twice_then_getInstance (A := Demo.application)
                     Demo.views1 Demo.models1 Demo.env0) 0).
    + reflexivity.
    + reflexivity.
    + intros k m a [H|[]]. injection H as _ <-. reflexivity.
  - eapply (proj2 (dispose_twice_then_getInstance (A := Demo.application)
                     Demo.views1 Demo.models1 Demo.env0) 0).
    + reflexivity.
    + reflexivity.
    + intros k p a [H|[]]. injection H as _ <-. reflexivity.
Defined.

(** ** The observer map never holds an empty list *)

Section Invariant.
Context {A : Application}.

Lemma keeps_ret {T} P (x : T) : keeps P (ret x).
Proof. intros v e H. exact H. Qed.

Lemma keeps_gets {T} P (f : View.t * Env A -> T) : keeps P (gets f).
Proof. intros v e H. exact H. Qed.

Lemma keeps_bind {T U} P (c : M (View.t * Env A) T) (k : T -> M (View.t * Env A) U) :
  keeps P c -> (forall x, keeps P (k x)) -> keeps P (c ≫= k).
Proof.
  intros Hc Hk v e H. unfold_bind.
  specialize (Hc v e H).
  destruct (c (v, e)) as [[v' e'] [x|err]]; simpl in *; auto.
  now apply Hk.
Qed.

Lemma keeps_modifyFst P (f : View.t -> View.t) :
  (forall v, P v -> P (f v)) -> keeps P (modifyFst f).
Proof. intros Hf v e H. simpl. now apply Hf. Qed.

Lemma keeps_onSnd {T} P (c : M (Env A) T) : keeps P (onSnd c).
Proof.
  intros v e H. unfold onSnd; simpl. now destruct (c e).
Qed.

Lemma keeps_forEach {X} P (f : X -> M (View.t * Env A) unit) (xs : list X) :
  (forall x, keeps P (f x)) -> keeps P (forEach xs f).
Proof.
  intros Hf. induction xs as [|x xs IH]; simpl.
  - apply keeps_ret.
  - apply keeps_bind; auto.
Qed.

Lemma registerObserver_nonempty name o v :
  lists_nonempty v -> lists_nonempty (View.registerObserver name o v).
Proof.
  unfold lists_nonempty, View.registerObserver. intros H.
  destruct (JsMap.get (View.observerMap v) name) as [os|]; simpl;
    apply (JsMapFacts.Forall_set (fun l => l <> [])); auto.
  now destruct os.
Qed.

Lemma removeObserver_nonempty name c v :
  lists_nonempty v -> lists_nonempty (View.removeObserver name c v).
Proof.
  unfold lists_nonempty, View.removeObserver. intros H.
  destruct (JsMap.get (View.observerMap v) name) as [os|]; simpl; auto.
  destruct (Nat.eqb_spec (length (View.scanned os c)) 0) as [H0|H0]; simpl.
  - now apply (JsMapFacts.Forall_delete (fun l => l <> [])).
  - apply (JsMapFacts.Forall_set (fun l => l <> [])); auto.
    intros Hnil. now rewrite Hnil in H0.
Qed.

Lemma notifyObservers_keeps P n : keeps P (View.notifyObservers n).
Proof.
  unfold View.notifyObservers. apply keeps_bind; [apply keeps_gets|].
  intros this. destruct (JsMap.get _ _); [|apply keeps_ret].
  apply keeps_forEach. intros o. apply keeps_onSnd.
Qed.

Lemma registerMediator_keeps m : keeps lists_nonempty (View.registerMediator m).
Proof.
  unfold View.registerMediator. apply keeps_bind; [apply keeps_gets|].
  intros this. destruct (JsMap.has _ _); [apply keeps_ret|].
  apply keeps_bind; [now apply keeps_modifyFst|]. intros _.
  apply keeps_bind; [apply keeps_gets|]. intros interests.
  apply keeps_bind; [|intros _; apply keeps_onSnd].
  destruct (Nat.ltb 0 (length interests)); [|apply keeps_ret].
  apply keeps_forEach. intros i. apply keeps_modifyFst.
  apply registerObserver_nonempty.
Qed.

Lemma removeMediator_keeps name : keeps lists_nonempty (View.removeMediator name).
Proof.
  unfold View.removeMediator. apply keeps_bind; [apply keeps_gets|].
  intros this. destruct (JsMap.get _ _) as [m|]; [|apply keeps_ret].
  apply keeps_bind; [apply keeps_gets|]. intros interests.
  apply keeps_bind.
  { apply keeps_forEach. intros i. apply keeps_modifyFst.
    apply removeObserver_nonempty. }
  intros _. apply keeps_bind; [now apply keeps_modifyFst|]. intros _.
  apply keeps_bind; [apply keeps_onSnd|]. intros _. apply keeps_ret.
Qed.

(** A method keeps a property of all objects when its body keeps it. *)
Lemma method_Forall {T} P (this : Ref) (body : M (View.t * Env A) T) s :
  keeps P body ->
  Forall P (objects (fst s)) ->
  Forall P (objects (fst (fst (method this body s)))).
Proof.
  intros Hbody Hall. unfold method.
  destruct (objects (fst s) !! this) as [o|] eqn:Ho; [|exact Hall].
  specialize (Hbody o (snd s) (Forall_lookup_1 _ _ _ _ Hall Ho)).
  destruct (body (o, snd s)) as [[o' e'] r]; simpl in *.
  now apply Forall_insert.
Qed.

Lemma bind_Forall {T U} (P : View.t -> Prop)
    (c : M (Class View.t * Env A) T) (k : T -> M (Class View.t * Env A) U) s :
  Forall P (objects (fst (fst (c s)))) ->
  (forall x s', Forall P (objects (fst s')) ->
                Forall P (objects (fst (fst (k x s'))))) ->
  Forall P (objects (fst (fst ((c ≫= k) s)))).
Proof.
  intros Hc Hk. unfold_bind.
  destruct (c s) as [s' [x|err]]; simpl in *; auto.
Qed.

Lemma dispose_Forall (this : Ref) s :
  Forall lists_nonempty (objects (fst s)) ->
  Forall lists_nonempty (objects (fst (fst (View.dispose this s)))).
Proof.
  intros Hall. unfold View.dispose. apply bind_Forall.
  - apply method_Forall; [|exact Hall].
    apply keeps_bind; [apply keeps_gets|]. intros names.
    apply keeps_forEach. intros name.
    apply keeps_bind; [apply removeMediator_keeps|]. intros _. apply keeps_ret.
  - intros _ s' Hs'. exact Hs'.
Qed.

Lemma constructor_Forall s :
  Forall lists_nonempty (objects (fst s)) ->
  Forall lists_nonempty (objects (fst (fst (View.constructor s)))).
Proof.
  intros Hall. unfold View.constructor. unfold_M; simpl.
  destruct (instance (fst s)); simpl; [exact Hall|].
  apply Forall_app. split; [exact Hall|].
  repeat constructor.
Qed.

Lemma getInstance_Forall s :
  Forall lists_nonempty (objects (fst s)) ->
  Forall lists_nonempty (objects (fst (fst (View.getInstance s)))).
Proof.
  intros Hall. unfold View.getInstance. unfold_bind. unfold gets at 1; simpl.
  destruct (instance (fst s)) eqn:Hi; simpl; [exact Hall|].
  pose proof (constructor_Forall s Hall) as Hc.
  destruct (View.constructor s) as [[cls e] [r|err]]; simpl in *; exact Hc.
Qed.

Lemma perform_Forall (this : Ref) (c : View.Call) s :
  Forall lists_nonempty (objects (fst s)) ->
  Forall lists_nonempty (objects (fst (fst (View.perform this c s)))).
Proof.
  intros Hall. destruct c; simpl.
  - apply method_Forall; auto. apply keeps_modifyFst.
    apply registerObserver_nonempty.
  - apply method_Forall; auto. apply keeps_modifyFst.
    apply removeObserver_nonempty.
  - apply method_Forall; auto. apply notifyObservers_keeps.
  - apply method_Forall; auto. apply registerMediator_keeps.
  - apply method_Forall; auto.
    apply keeps_bind; [apply removeMediator_keeps|]. intros _. apply keeps_ret.
  - now apply dispose_Forall.
Qed.

(** C4. In every state the class [View] can be brought to by calls of
    [getInstance], the constructor, [registerObserver], [removeObserver],
    [registerMediator], [removeMediator], [notifyObservers] and [dispose],
    however they end, every entry of the observer map of every [View] object
    holds a list with at least one observer. *)
Theorem observer_lists_never_empty (s : Class View.t * Env A) :
  View.reachable s ->
  forall (this : Ref) (v : View.t),
    objects (fst s) !! this = Some v ->
    forall (name : string) (observers : list Observer),
      In (name, observers) (View.observerMap v) -> observers <> [].
Proof.
  intros Hreach.
  assert (Hall : Forall lists_nonempty (objects (fst s))).
  { induction Hreach; simpl.
    - constructor.
    - now apply getInstance_Forall.
    - now apply constructor_Forall.
    - now apply perform_Forall.
    - exact IHHreach. }
  intros this v Hv name observers Hin.
  pose proof (Forall_lookup_1 _ _ _ _ Hall Hv) as Hne.
  unfold lists_nonempty in Hne. rewrite List.Forall_forall in Hne.
  exact (Hne (name, observers) Hin).
Qed.

End Invariant.

Lemma observer_lists_never_empty_witness :
  View.reachable Demo.state2
  /\ objects (fst Demo.state2) !! 0
     = Some {| View.mediatorMap := [];
               View.observerMap := [("N", [Demo.o2])] |}
  /\ forall name observers,
       In (name, observers) [("N", [Demo.o2])] -> observers <> [].
Proof.
  assert (Hreach : View.reachable Demo.state2).
  { unfold Demo.state2. repeat apply View.reachable_perform.
    apply View.reachable_getInstance.
    apply (View.reachable_start (A := Demo.application) []). }
  split; [exact Hreach|]. split; [reflexivity|].
  exact (observer_lists_never_empty (A := Demo.application)
           Demo.state2 Hreach 0
           {| View.mediatorMap := [];
              View.observerMap := [("N", [Demo.o2])] |} eq_refl).
Defined.

(** ** Runs on the small application *)

(** The scan goes from the end: of two observers with the context asked for,
    the one registered last is removed. *)
Example removeObserver_takes_the_last_match :
  View.scanned [newObserver 1 10; newObserver 2 20; newObserver 3 10] 10
  = [newObserver 1 10; newObserver 2 20].
Proof. reflexivity. Qed.

(** No context matches: the list is left as it is. *)
Example removeObserver_without_match :
  View.removeObserver "N" 30 Demo.view12 = Demo.view12.
Proof. reflexivity. Qed.

(** The last observer of a name goes, and the key with it. *)
Example removeObserver_deletes_the_key :
  View.observerMap
    (View.removeObserver "N" 20 (View.removeObserver "N" 10 Demo.view12))
  = [].
Proof. reflexivity. Qed.

(** An observer registered twice is called twice. *)
Example observer_registered_twice :
  trace (snd (fst (View.notifyObservers (A := Demo.application) (Demo.note "N")
                     (View.registerObserver "N" Demo.o1 Demo.view12, Demo.env0))))
  = [Notified Demo.o1 (Demo.note "N"); Notified Demo.o2 (Demo.note "N");
     Notified Demo.o1 (Demo.note "N")].
Proof. reflexivity. Qed.

(** A notification nobody observes: nothing is called. *)
Example notification_without_observers :
  View.notifyObservers (A := Demo.application) (Demo.note "Z")
    (Demo.view12, Demo.env0)
  = ((Demo.view12, Demo.env0), Ret tt).
Proof. reflexivity. Qed.

(** Proxy 5 is registered as colors, retrieved, removed, and gone. *)
Example proxy_colors :
  let s1 := Model.registerProxy (A := Demo.application) 5 (Model.fresh, Demo.env0) in
  let s2 := Model.removeProxy (A := Demo.application) "colors" (fst s1) in
  Model.retrieveProxy "colors" (fst (fst s1)) = Some 5
  /\ snd s2 = Ret (Some 5)
  /\ Model.retrieveProxy "colors" (fst (fst s2)) = None
  /\ trace (snd (fst s2)) = [OnRegister 5; OnRemove 5].
Proof. repeat split. Qed.

(** A mediator whose [onRemove] hook throws: [dispose()] ends with the
    exception, after the mediator left the map, and the static field still
    holds the instance. *)
Example dispose_with_throwing_hook :
  let s0 := fst (View.getInstance (A := Demo.application)
                   ({| instance := None; objects := [] |}, Demo.env0)) in
  let s1 := fst (View.perform 0 (View.CallRegisterMediator 7) s0) in
  let s2 := View.dispose 0 s1 in
  snd s2 = Exn "onRemove failed"
  /\ instance (fst (fst s2)) = Some 0
  /\ (View.mediatorMap <$> objects (fst (fst s2)) !! 0) = Some [].
Proof. repeat split. Qed.

(** * More of the View and the Model *)

(** ** [Map] laws for writing a value back *)

Section WriteBack.
Context {V : Type}.
Implicit Types (m : JsMap.t V) (k : string) (v : V).

Lemma set_same m k v : JsMap.get m k = Some v -> JsMap.set m k v = m.
Proof.
  induction m as [|[k' v'] m IH]; simpl; [discriminate|].
  destruct (String.eqb k' k) eqn:E; intros H.
  - congruence.
  - now rewrite IH.
Qed.

Lemma set_set m k v v' : JsMap.set (JsMap.set m k v') k v = JsMap.set m k v.
Proof.
  induction m as [|[k0 v0] m IH]; simpl.
  - now rewrite String.eqb_refl.
  - destruct (String.eqb k0 k) eqn:E; simpl; rewrite E; [reflexivity|].
    now rewrite IH.
Qed.

Lemma delete_absent m k : JsMap.get m k = None -> JsMap.delete m k = m.
Proof.
  induction m as [|[k' v'] m IH]; simpl; auto.
  destruct (String.eqb k' k); [discriminate|].
  intros H. now rewrite IH.
Qed.

Lemma delete_set_absent m k v :
  JsMap.get m k = None -> JsMap.delete (JsMap.set m k v) k = m.
Proof.
  induction m as [|[k' v'] m IH]; simpl.
  - now rewrite String.eqb_refl.
  - destruct (String.eqb k' k) eqn:E; [discriminate|].
    intros H. simpl. rewrite E. now rewrite IH.
Qed.

End WriteBack.

(** ** What [removeObserver] takes away *)

Section RemoveObserver.
Implicit Types (this : View.t) (o : Observer) (c : Ref).

Lemma view_eta this :
  View.set_observerMap this (View.observerMap this) = this.
Proof. now destruct this. Qed.

(** The scan stops at the last observer with the context and splices it
    out. *)
Lemma scanned_split (pre post : list Observer) o c :
  compareNotifyContext o c = true ->
  (forall p, In p post -> compareNotifyContext p c = false) ->
  View.scanned (pre ++ o :: post) c = pre ++ post.
Proof.
  intros Ho Hpost. unfold View.scanned.
  assert (Hloop : forall d, d <= length post ->
    View.removeObserver_loop (pre ++ o :: post) c (S (length pre) + d)
    = pre ++ post).
  { induction d as [|d IH]; intros Hd.
    - rewrite Nat.add_0_r; simpl.
      rewrite list_lookup_middle by reflexivity. rewrite Ho.
      unfold splice1. rewrite take_app_length. f_equal.
      rewrite (drop_app_ge pre) by lia.
      replace (S (length pre) - length pre) with 1 by lia. reflexivity.
    - rewrite Nat.add_succ_r; simpl.
      rewrite lookup_app_r by lia.
      replace (S (length pre + d) - length pre) with (S d) by lia; simpl.
      destruct (post !! d) as [p|] eqn:Ep.
      + rewrite (Hpost p) by (apply list_elem_of_In;
                              now apply (list_elem_of_lookup_2 post d p)).
        apply IH. lia.
      + apply lookup_ge_None in Ep. lia. }
  rewrite length_app; simpl.
  replace (length pre + S (length post)) with (S (length pre) + length post)
    by lia.
  now apply Hloop.
Qed.

(** [removeObserver] takes away the observer registered last among those
    with the context, keeps every other observer in its place, and deletes
    the key when none is left. *)
Theorem removeObserver_removes_last_match
    this (name : string) c (pre post : list Observer) o :
  JsMap.get (View.observerMap this) name = Some (pre ++ o :: post) ->
  compareNotifyContext o c = true ->
  (forall p, In p post -> compareNotifyContext p c = false) ->
  JsMap.get (View.observerMap (View.removeObserver name c this)) name
  = match pre ++ post with
    | [] => None
    | _ :: _ => Some (pre ++ post)
    end.
Proof.
  intros Hget Ho Hpost. unfold View.removeObserver. rewrite Hget.
  rewrite (scanned_split pre post o c Ho Hpost).
  destruct (pre ++ post) as [|x xs] eqn:E; simpl.
  - apply JsMapFacts.get_delete_eq.
  - apply JsMapFacts.get_set_eq.
Qed.

(** [removeObserver] changes nothing when the name has no list, and when no
    observer of its list has the context. *)
Theorem removeObserver_without_match_changes_nothing this (name : string) c :
  (JsMap.get (View.observerMap this) name = None ->
   View.removeObserver name c this = this)
  /\ (forall os,
        JsMap.get (View.observerMap this) name = Some os -> os <> [] ->
        (forall o, In o os -> compareNotifyContext o c = false) ->
        View.removeObserver name c this = this).
Proof.
  split.
  - intros Hget. unfold View.removeObserver. now rewrite Hget.
  - intros os Hget Hne Hnone. unfold View.removeObserver. rewrite Hget.
    assert (Hscan : View.scanned os c = os).
    { apply removeObserver_loop_none. intros j o _ Hj. apply Hnone.
      apply list_elem_of_In. now apply (list_elem_of_lookup_2 os j o). }
    rewrite Hscan.
    destruct (Nat.eqb_spec (length os) 0) as [H0|H0].
    + apply length_zero_iff_nil in H0. contradiction.
    + rewrite set_same by exact Hget. apply view_eta.
Qed.

Lemma removeObserver_registerObserver this (name : string) o :
  lists_nonempty this ->
  View.removeObserver name (context o) (View.registerObserver name o this)
  = this.
Proof.
  intros Hinv.
  assert (Hc : compareNotifyContext o (context o) = true)
    by apply Nat.eqb_refl.
  unfold View.removeObserver.
  rewrite observers_of_registerObserver.
  rewrite (scanned_last (View.observers_of this name) o (context o) Hc).
  unfold View.registerObserver, View.observers_of.
  destruct (JsMap.get (View.observerMap this) name) as [os|] eqn:Hget; simpl.
  - assert (Hne : os <> []).
    { unfold lists_nonempty in Hinv. rewrite List.Forall_forall in Hinv.
      exact (Hinv (name, os) (JsMapFacts.get_Some_In _ _ _ Hget)). }
    destruct (Nat.eqb_spec (length os) 0) as [H0|H0].
    + apply length_zero_iff_nil in H0. contradiction.
    + unfold View.set_observerMap; simpl.
      rewrite set_set, set_same by exact Hget. now destruct this.
  - unfold View.set_observerMap; simpl.
    rewrite delete_set_absent by exact Hget. now destruct this.
Qed.

(** In a view without empty lists, [removeObserver] with the context of the
    observer that [registerObserver] just added gives the view back: the
    observer was added at the end, and the scan from the end finds it
    first. *)
Theorem removeObserver_undoes_registerObserver this (name : string) o :
  lists_nonempty this ->
  View.removeObserver name (context o) (View.registerObserver name o this)
  = this.
Proof.
  apply removeObserver_registerObserver.
Qed.

(** [registerObserver] and [removeObserver] for one name touch neither the
    list of another name nor the mediator map. *)
Theorem observer_calls_leave_other_names this (name other : string) o c :
  name <> other ->
  (JsMap.get (View.observerMap (View.registerObserver name o this)) other
   = JsMap.get (View.observerMap this) other
   /\ View.mediatorMap (View.registerObserver name o this)
      = View.mediatorMap this)
  /\ (JsMap.get (View.observerMap (View.removeObserver name c this)) other
      = JsMap.get (View.observerMap this) other
      /\ View.mediatorMap (View.removeObserver name c this)
         = View.mediatorMap this).
Proof.
  intros Hne. repeat split.
  - now apply get_registerObserver_ne.
  - apply mediatorMap_registerObserver.
  - now apply get_removeObserver_ne.
  - apply mediatorMap_removeObserver.
Qed.

End RemoveObserver.

(** ** A mediator from registration to removal *)

Section MediatorLife.
Context {A : Application}.
Implicit Types (this : View.t) (e : Env A) (m : Ref).

Lemma get_registered_notin m l : forall this y,
  ~ In y l ->
  JsMap.get (View.observerMap (View.registered m l this)) y
  = JsMap.get (View.observerMap this) y.
Proof.
  unfold View.registered.
  induction l as [|x l IH]; intros this y Hy; simpl; auto.
  rewrite IH by (simpl in Hy; tauto).
  apply get_registerObserver_ne. simpl in Hy. tauto.
Qed.

(** [registerMediator(m)] with a free name stores [m] under its name and
    under no other, adds the observer of [m] at the end of the list of each
    interest, once per occurrence, leaves the list of every other name
    alone, and then calls [m.onRegister()], the one hook it runs. *)
Theorem registerMediator_registers this e m :
  let name := getMediatorName m in
  let interests := listNotificationInterests m (app e) in
  let s1 := View.registerMediator m (this, e) in
  View.hasMediator name this = false ->
  View.retrieveMediator name (fst (fst s1)) = Some m
  /\ (forall other, other <> name ->
        View.retrieveMediator other (fst (fst s1))
        = View.retrieveMediator other this)
  /\ (forall x,
        View.observers_of (fst (fst s1)) x
        = View.observers_of this x
          ++ repeat (View.mediatorObserver m) (count_occ string_dec interests x))
  /\ (forall x, ~ In x interests ->
        JsMap.get (View.observerMap (fst (fst s1))) x
        = JsMap.get (View.observerMap this) x)
  /\ events_during (View.registerMediator m) (this, e) = [OnRegister m]
  /\ app (snd (fst s1)) = fst (onRegister m (app e)).
Proof.
  intros name interests s1 Hfree. subst s1.
  unfold events_during. rewrite (registerMediator_run this e m Hfree); simpl.
  unfold View.retrieveMediator.
  rewrite mediatorMap_registered; simpl.
  split; [apply JsMapFacts.get_set_eq|].
  split; [intros other Hne; now apply JsMapFacts.get_set_ne|].
  split; [intros x; now rewrite observers_of_registered|].
  split; [intros x Hx; now rewrite get_registered_notin|].
  split; [apply drop_app_length | reflexivity].
Qed.


(** Whatever the first [removeMediator] of a name did, a second one right
    after it finds nothing: it returns the absent result, changes nothing
    and calls no hook. *)
Theorem removeMediator_again_finds_nothing this e (name : string) :
  let s1 := fst (View.removeMediator name (this, e)) in
  View.removeMediator name s1 = (s1, Ret None).
Proof.
  cbv zeta.
  destruct (JsMap.get (View.mediatorMap this) name) as [m|] eqn:Hget.
  - rewrite (removeMediator_run this e name m Hget); simpl.
    apply removeMediator_absent; simpl. apply JsMapFacts.get_delete_eq.
  - rewrite (removeMediator_absent this e name Hget); simpl.
    now apply removeMediator_absent.
Qed.

(** [removeMediator] of one name leaves the mediator of every other name
    registered. *)
Theorem removeMediator_leaves_other_mediators this e (name other : string) :
  name <> other ->
  View.retrieveMediator other (fst (fst (View.removeMediator name (this, e))))
  = View.retrieveMediator other this.
Proof.
  intros Hne. unfold View.retrieveMediator.
  destruct (JsMap.get (View.mediatorMap this) name) as [m|] eqn:Hget.
  - rewrite (removeMediator_run this e name m Hget); simpl.
    now apply JsMapFacts.get_delete_ne.
  - now rewrite (removeMediator_absent this e name Hget).
Qed.

End MediatorLife.

Lemma registerMediator_registers_witness :
  View.hasMediator "A" Demo.view12X = false
  /\ View.observers_of
       (fst (fst (View.registerMediator (A := Demo.application) 1
                    (Demo.view12X, Demo.env0)))) "X"
     = [Demo.o1; View.mediatorObserver (A := Demo.application) 1].
Proof.
  split; [reflexivity|].
  exact (proj1 (proj2 (proj2 (registerMediator_registers
           (A := Demo.application) Demo.view12X Demo.env0 1 eq_refl))) "X").
Defined.


Lemma removeMediator_leaves_other_mediators_witness :
  "A" <> "B"
  /\ View.retrieveMediator "B"
       (fst (fst (View.removeMediator (A := Demo.application) "A"
          (fst (View.registerMediator (A := Demo.application) 3
                  (Demo.view_with_1, Demo.env0))))))
     = Some 3.
Proof.
  split; [discriminate|].
  exact (eq_trans
    (removeMediator_leaves_other_mediators (A := Demo.application)
       (fst (fst (View.registerMediator (A := Demo.application) 3
                    (Demo.view_with_1, Demo.env0))))
       (snd (fst (View.registerMediator (A := Demo.application) 3
                    (Demo.view_with_1, Demo.env0))))
       "A" "B" ltac:(discriminate))
    eq_refl).
Defined.

(** ** The singletons, call by call *)

Section SingletonLife.
Context {A : Application}.

(** [getInstance()] returns the instance of the static field when there is
    one, without touching anything, and otherwise constructs an object with
    empty maps; either way the static field holds what it returned, and a
    second [getInstance()] returns the same reference and changes nothing. *)
Theorem getInstance_returns_the_one_instance
    (view : Class View.t) (model : Class Model.t) (e : Env A) :
  (exists this,
     snd (View.getInstance (view, e)) = Ret this
     /\ instance (fst (fst (View.getInstance (view, e)))) = Some this
     /\ View.getInstance (fst (View.getInstance (view, e)))
        = (fst (View.getInstance (view, e)), Ret this)
     /\ match instance view with
        | Some r => this = r /\ fst (View.getInstance (view, e)) = (view, e)
        | None =>
            this = length (objects view)
            /\ objects (fst (fst (View.getInstance (view, e))))
               = objects view ++ [View.fresh]
        end)
  /\
  (exists this,
     snd (Model.getInstance (model, e)) = Ret this
     /\ instance (fst (fst (Model.getInstance (model, e)))) = Some this
     /\ Model.getInstance (fst (Model.getInstance (model, e)))
        = (fst (Model.getInstance (model, e)), Ret this)
     /\ match instance model with
        | Some r => this = r /\ fst (Model.getInstance (model, e)) = (model, e)
        | None =>
            this = length (objects model)
            /\ objects (fst (fst (Model.getInstance (model, e))))
               = objects model ++ [Model.fresh]
        end).
Proof.
  split.
  - destruct (instance view) as [r|] eqn:Hi.
    + assert (Hrun : View.getInstance (view, e) = ((view, e), Ret r)).
      { unfold View.getInstance. unfold_bind. unfold gets; simpl.
        now rewrite Hi. }
      exists r. rewrite Hrun; simpl. auto.
    + rewrite (View_getInstance_fresh view e Hi); simpl.
      exists (length (objects view)). repeat split.
  - destruct (instance model) as [r|] eqn:Hi.
    + assert (Hrun : Model.getInstance (model, e) = ((model, e), Ret r)).
      { unfold Model.getInstance. unfold_bind. unfold gets; simpl.
        now rewrite Hi. }
      exists r. rewrite Hrun; simpl. auto.
    + rewrite (Model_getInstance_fresh model e Hi); simpl.
      exists (length (objects model)). repeat split.
Qed.

Lemma delete_head_NoDup {V} (k : string) (v : V) (m : JsMap.t V) :
  ~ In k (JsMap.keys m) -> JsMap.delete ((k, v) :: m) k = m.
Proof.
  intros Hk. simpl. rewrite String.eqb_refl.
  induction m as [|[k' v'] m IH]; simpl; auto.
  destruct (String.eqb_spec k' k) as [->|Hne].
  - destruct Hk. now left.
  - rewrite IH; auto. intros H. apply Hk. now right.
Qed.

(** The loop of [View.dispose] over a map without a repeated key: one
    [onRemove] per mediator, in the order of the keys. *)
Lemma View_dispose_loop_in_order (mm : JsMap.t Ref) :
  forall (v : View.t) (e : Env A),
  View.mediatorMap v = mm ->
  List.NoDup (JsMap.keys mm) ->
  (forall k m a, In (k, m) mm -> snd (onRemove m a) = Normal) ->
  exists v' e',
    forEach (JsMap.keys mm) (fun name => View.removeMediator name;; ret tt) (v, e)
    = ((v', e'), Ret tt)
    /\ View.mediatorMap v' = []
    /\ trace e' = trace e ++ map OnRemove (map snd mm).
Proof.
  induction mm as [|[k m] mm IH]; intros v e Hmm Hnd Hhooks; simpl.
  - exists v, e. now rewrite app_nil_r.
  - unfold_bind.
    assert (Hget : JsMap.get (View.mediatorMap v) k = Some m).
    { rewrite Hmm; simpl. now rewrite String.eqb_refl. }
    rewrite (removeMediator_run v e k m Hget).
    rewrite (Hhooks k m) by now left.
    unfold ret at 1.
    inversion Hnd as [|? ? Hk Hnd']; subst.
    edestruct (IH (View.set_mediatorMap
                     (View.stripped m (listNotificationInterests m (app e)) v)
                     (JsMap.delete (View.mediatorMap v) k)))
      as (v' & e' & Hrun & Hempty & Htrace).
    + simpl. rewrite Hmm. now apply delete_head_NoDup.
    + exact Hnd'.
    + intros k' m' a Hin. apply (Hhooks k'). now right.
    + exists v', e'. rewrite Hrun. repeat split; auto.
      rewrite Htrace; simpl. now rewrite <- app_assoc.
Qed.

Lemma Model_dispose_loop_in_order (pm : JsMap.t Ref) :
  forall (v : Model.t) (e : Env A),
  Model.proxyMap v = pm ->
  List.NoDup (JsMap.keys pm) ->
  (forall k p a, In (k, p) pm -> snd (onRemove p a) = Normal) ->
  exists v' e',
    forEach (JsMap.keys pm) (fun name => Model.removeProxy name;; ret tt) (v, e)
    = ((v', e'), Ret tt)
    /\ Model.proxyMap v' = []
    /\ trace e' = trace e ++ map OnRemove (map snd pm).
Proof.
  induction pm as [|[k p] pm IH]; intros v e Hpm Hnd Hhooks; simpl.
  - exists v, e. now rewrite app_nil_r.
  - unfold_bind.
    assert (Hget : JsMap.get (Model.proxyMap v) k = Some p).
    { rewrite Hpm; simpl. now rewrite String.eqb_refl. }
    rewrite (removeProxy_run v e k p Hget).
    rewrite (Hhooks k p) by now left.
    unfold ret at 1.
    inversion Hnd as [|? ? Hk Hnd']; subst.
    edestruct (IH {| Model.proxyMap := JsMap.delete (Model.proxyMap v) k |})
      as (v' & e' & Hrun & Hempty & Htrace).
    + simpl. rewrite Hpm. now apply delete_head_NoDup.
    + exact Hnd'.
    + intros k' p' a Hin. apply (Hhooks k'). now right.
    + exists v', e'. rewrite Hrun. repeat split; auto.
      rewrite Htrace; simpl. now rewrite <- app_assoc.
Qed.

(** [dispose()], with hooks that complete normally, calls [onRemove] of
    every registered mediator (of every registered proxy) once, in the order
    in which their names entered the map, and no other hook and no
    callback. *)
Theorem dispose_calls_onRemove_in_key_order
    (view : Class View.t) (model : Class Model.t) (e : Env A) :
  (forall (this : Ref) (v : View.t),
     objects view !! this = Some v ->
     List.NoDup (JsMap.keys (View.mediatorMap v)) ->
     (forall k m a, In (k, m) (View.mediatorMap v) ->
                    snd (onRemove m a) = Normal) ->
     events_during (View.dispose this) (view, e)
     = map OnRemove (map snd (View.mediatorMap v)))
  /\
  (forall (this : Ref) (v : Model.t),
     objects model !! this = Some v ->
     List.NoDup (JsMap.keys (Model.proxyMap v)) ->
     (forall k p a, In (k, p) (Model.proxyMap v) ->
                    snd (onRemove p a) = Normal) ->
     events_during (Model.dispose this) (model, e)
     = map OnRemove (map snd (Model.proxyMap v))).
Proof.
  split.
  - intros this v Ho Hnd Hhooks.
    destruct (View_dispose_loop_in_order (View.mediatorMap v) v e
                eq_refl Hnd Hhooks) as (v' & e' & Hrun & _ & Htrace).
    unfold events_during, View.dispose. unfold_bind.
    rewrite (method_run this _ view e v Ho).
    unfold gets at 1 2 3; simpl. rewrite Hrun; simpl.
    rewrite Htrace. apply drop_app_length.
  - intros this v Ho Hnd Hhooks.
    destruct (Model_dispose_loop_in_order (Model.proxyMap v) v e
                eq_refl Hnd Hhooks) as (v' & e' & Hrun & _ & Htrace).
    unfold events_during, Model.dispose. unfold_bind.
    rewrite (method_run this _ model e v Ho).
    unfold gets at 1 2 3; simpl. rewrite Hrun; simpl.
    rewrite Htrace. apply drop_app_length.
Qed.

End SingletonLife.

(** ** A hook that throws during [dispose] *)

Section DisposeThrows.
Context {A : Application}.

Lemma View_dispose_loop_throw (pre : JsMap.t Ref) (k : string) (m : Ref)
    (post : JsMap.t Ref) (err : Error) :
  forall (v : View.t) (e : Env A),
  View.mediatorMap v = pre ++ (k, m) :: post ->
  List.NoDup (JsMap.keys (pre ++ (k, m) :: post)) ->
  (forall k' m' a, In (k', m') pre -> snd (onRemove m' a) = Normal) ->
  (forall a, snd (onRemove m a) = Throw err) ->
  exists v' e',
    forEach (JsMap.keys (pre ++ (k, m) :: post))
      (fun name => View.removeMediator name;; ret tt) (v, e)
    = ((v', e'), Exn err)
    /\ View.mediatorMap v' = post
    /\ trace e' = trace e ++ map OnRemove (map snd pre ++ [m]).
Proof.
  induction pre as [|[k0 m0] pre IH]; intros v e Hmm Hnd Hpre Hm; simpl in *.
  - unfold_bind.
    assert (Hget : JsMap.get (View.mediatorMap v) k = Some m).
    { rewrite Hmm; simpl. now rewrite String.eqb_refl. }
    rewrite (removeMediator_run v e k m Hget). rewrite Hm.
    inversion Hnd as [|? ? Hk Hnd']; subst.
    eexists _, _. split; [reflexivity|]. simpl. split; [|reflexivity].
    rewrite Hmm. now apply delete_head_NoDup.
  - unfold_bind.
    assert (Hget : JsMap.get (View.mediatorMap v) k0 = Some m0).
    { rewrite Hmm; simpl. now rewrite String.eqb_refl. }
    rewrite (removeMediator_run v e k0 m0 Hget).
    rewrite (Hpre k0 m0) by now left.
    unfold ret at 1.
    inversion Hnd as [|? ? Hk Hnd']; subst.
    edestruct (IH (View.set_mediatorMap
                     (View.stripped m0 (listNotificationInterests m0 (app e)) v)
                     (JsMap.delete (View.mediatorMap v) k0)))
      as (v' & e' & Hrun & Hrest & Htrace).
    + simpl. rewrite Hmm. now apply delete_head_NoDup.
    + exact Hnd'.
    + intros k' m' a Hin. apply (Hpre k'). now right.
    + exact Hm.
    + exists v', e'. rewrite Hrun. repeat split; auto.
      rewrite Htrace; simpl. now rewrite <- app_assoc.
Qed.

(** When the [onRemove] hook of a registered mediator throws, [dispose()]
    ends with that exception in the middle of the teardown: the mediators
    registered before it and the one that threw are removed and have had
    their hook called, the ones registered after it are still in the map
    with no hook called, and the static field still holds the instance. *)
Theorem dispose_stops_at_throwing_hook
    (view : Class View.t) (e : Env A) (this : Ref) (v : View.t)
    (pre : JsMap.t Ref) (k : string) (m : Ref) (post : JsMap.t Ref)
    (err : Error) :
  objects view !! this = Some v ->
  View.mediatorMap v = pre ++ (k, m) :: post ->
  List.NoDup (JsMap.keys (pre ++ (k, m) :: post)) ->
  (forall k' m' a, In (k', m') pre -> snd (onRemove m' a) = Normal) ->
  (forall a, snd (onRemove m a) = Throw err) ->
  snd (View.dispose this (view, e)) = Exn err
  /\ instance (fst (fst (View.dispose this (view, e)))) = instance view
  /\ (View.mediatorMap
        <$> objects (fst (fst (View.dispose this (view, e)))) !! this)
     = Some post
  /\ events_during (View.dispose this) (view, e)
     = map OnRemove (map snd pre ++ [m]).
Proof.
  intros Ho Hmm Hnd Hpre Hm.
  destruct (View_dispose_loop_throw pre k m post err v e Hmm Hnd Hpre Hm)
    as (v' & e' & Hrun & Hrest & Htrace).
  assert (Hlt : this < length (objects view)) by now apply lookup_lt_Some in Ho.
  unfold events_during, View.dispose. unfold_bind.
  rewrite (method_run this _ view e v Ho).
  unfold gets at 1 2 3; simpl. rewrite Hmm, Hrun; simpl.
  repeat split.
  - rewrite list_lookup_insert_eq by exact Hlt. simpl. now rewrite Hrest.
  - rewrite Htrace. apply drop_app_length.
Qed.

End DisposeThrows.

(** ** Mediators are stored under their own name *)

Section OwnName.
Context {A : Application}.

Lemma In_set {V} (m : JsMap.t V) (k k' : string) (v v' : V) :
  In (k', v') (JsMap.set m k v) -> (k', v') = (k, v) \/ In (k', v') m.
Proof.
  induction m as [|[k0 v0] m IH]; simpl.
  - intros [H|[]]. left. congruence.
  - destruct (String.eqb_spec k0 k) as [->|Hne]; simpl.
    + intros [H|H]; [left; congruence | right; now right].
    + intros [H|H]; [right; now left|].
      destruct (IH H); [now left | right; now right].
Qed.

Lemma registerMediator_named m : keeps named_by_key (View.registerMediator m).
Proof.
  intros v e Hv.
  destruct (View.hasMediator (getMediatorName m) v) eqn:Hhas.
  - now rewrite registerMediator_taken.
  - rewrite registerMediator_view by exact Hhas.
    intros k m' Hin. rewrite mediatorMap_registered in Hin; simpl in Hin.
    apply In_set in Hin as [Heq|Hin]; [congruence | now apply Hv].
Qed.

Lemma removeMediator_named name : keeps named_by_key (View.removeMediator name).
Proof.
  intros v e Hv.
  destruct (JsMap.get (View.mediatorMap v) name) as [m|] eqn:Hget.
  - rewrite (removeMediator_run v e name m Hget); simpl.
    intros k m' Hin. apply In_delete in Hin. now apply Hv.
  - now rewrite (removeMediator_absent v e name Hget).
Qed.

(** In every state the class [View] can be brought to, a mediator that
    [retrieveMediator(name)] returns has that name. *)
Theorem retrieved_mediator_has_the_name (s : Class View.t * Env A) :
  View.reachable s ->
  forall (this : Ref) (v : View.t) (name : string) (m : Ref),
    objects (fst s) !! this = Some v ->
    View.retrieveMediator name v = Some m ->
    getMediatorName m = name.
Proof.
  intros Hreach.
  assert (Hall : Forall named_by_key (objects (fst s))).
  { induction Hreach as [a|s Hs IH|s Hs IH|s this c Hs IH|s a Hs IH]; simpl.
    - constructor.
    - unfold View.getInstance, View.constructor. unfold_M; simpl.
      destruct (instance (fst s)); simpl; [exact IH|].
      destruct (instance (fst s)); simpl; [exact IH|].
      apply Forall_app. split; [exact IH|]. repeat constructor. intros k m [].
    - unfold View.constructor. unfold_M; simpl.
      destruct (instance (fst s)); simpl; [exact IH|].
      apply Forall_app. split; [exact IH|]. repeat constructor. intros k m [].
    - destruct c; simpl.
      + apply method_Forall; auto. apply keeps_modifyFst.
        intros v Hv k m. rewrite mediatorMap_registerObserver. apply Hv.
      + apply method_Forall; auto. apply keeps_modifyFst.
        intros v Hv k m. rewrite mediatorMap_removeObserver. apply Hv.
      + apply method_Forall; auto. apply notifyObservers_keeps.
      + apply method_Forall; auto. apply registerMediator_named.
      + apply method_Forall; auto.
        apply keeps_bind; [apply removeMediator_named|]. intros _.
        apply keeps_ret.
      + unfold View.dispose. apply bind_Forall.
        * apply method_Forall; [|exact IH].
          apply keeps_bind; [apply keeps_gets|]. intros names.
          apply keeps_forEach. intros name.
          apply keeps_bind; [apply removeMediator_named|]. intros _.
          apply keeps_ret.
        * intros _ s' Hs'. exact Hs'.
    - exact IH. }
  intros this v name m Hv Hget.
  pose proof (Forall_lookup_1 _ _ _ _ Hall Hv) as Hnamed.
  apply Hnamed. now apply JsMapFacts.get_Some_In.
Qed.

End OwnName.

(** ** Proxies, name by name *)

Section ProxyNames.
Context {A : Application}.
Implicit Types (this : Model.t) (e : Env A) (p : Ref).

(** [registerProxy] and [removeProxy] leave the proxy of every other name
    where it is. *)
Theorem proxy_calls_leave_other_names this e p (name other : string) :
  getProxyName p <> other ->
  name <> other ->
  Model.retrieveProxy other (fst (fst (Model.registerProxy p (this, e))))
  = Model.retrieveProxy other this
  /\ Model.retrieveProxy other (fst (fst (Model.removeProxy name (this, e))))
     = Model.retrieveProxy other this.
Proof.
  intros Hp Hname. unfold Model.retrieveProxy. split.
  - rewrite registerProxy_run; simpl. now apply JsMapFacts.get_set_ne.
  - destruct (JsMap.get (Model.proxyMap this) name) as [q|] eqn:Hget.
    + rewrite (removeProxy_run this e name q Hget); simpl.
      now apply JsMapFacts.get_delete_ne.
    + now rewrite (removeProxy_absent this e name Hget).
Qed.

(** Whatever the first [removeProxy] of a name did, a second one right after
    it finds nothing: it returns the absent result, changes nothing and
    calls no hook. *)
Theorem removeProxy_again_finds_nothing this e (name : string) :
  let s1 := fst (Model.removeProxy name (this, e)) in
  Model.removeProxy name s1 = (s1, Ret None).
Proof.
  cbv zeta.
  destruct (JsMap.get (Model.proxyMap this) name) as [p|] eqn:Hget.
  - rewrite (removeProxy_run this e name p Hget); simpl.
    apply removeProxy_absent; simpl. apply JsMapFacts.get_delete_eq.
  - rewrite (removeProxy_absent this e name Hget); simpl.
    now apply removeProxy_absent.
Qed.

End ProxyNames.

(** * The Controller *)

(** ** Its methods, step by step *)

Section ControllerSteps.
Context {A : Application} (C : Controller.Commands).
Local Abbreviation W := (Controller.withController C).
Implicit Types (v : View.t) (e : Env W) (name : string) (n : INotification).

Lemma registerCommand_new v e name cls :
  Controller.hasCommand name (Controller.this_of C (v, e)) = false ->
  Controller.registerCommand C name cls (v, e)
  = ((View.registerObserver name (Controller.commandObserver C) v,
      Controller.with_commandMap C e
        (JsMap.set (Controller.commandMap (Controller.this_of C (v, e))) name cls)),
     Ret tt).
Proof.
  intros Hhas. unfold Controller.hasCommand in Hhas.
  unfold Controller.registerCommand. unfold_bind. unfold gets at 1; simpl.
  rewrite Hhas; simpl. reflexivity.
Qed.

Lemma registerCommand_again v e name cls :
  Controller.hasCommand name (Controller.this_of C (v, e)) = true ->
  Controller.registerCommand C name cls (v, e)
  = ((v, Controller.with_commandMap C e
           (JsMap.set (Controller.commandMap (Controller.this_of C (v, e))) name cls)),
     Ret tt).
Proof.
  intros Hhas. unfold Controller.hasCommand in Hhas.
  unfold Controller.registerCommand. unfold_bind. unfold gets at 1; simpl.
  rewrite Hhas; simpl. reflexivity.
Qed.

Lemma removeCommand_registered v e name :
  Controller.hasCommand name (Controller.this_of C (v, e)) = true ->
  Controller.removeCommand C name (v, e)
  = ((View.removeObserver name (Controller.controller C) v,
      Controller.with_commandMap C e
        (JsMap.delete (Controller.commandMap (Controller.this_of C (v, e))) name)),
     Ret tt).
Proof.
  intros Hhas.
  unfold Controller.removeCommand. unfold_bind. unfold gets at 1; simpl.
  rewrite Hhas; simpl. reflexivity.
Qed.

Lemma removeCommand_unregistered v e name :
  Controller.hasCommand name (Controller.this_of C (v, e)) = false ->
  Controller.removeCommand C name (v, e) = ((v, e), Ret tt).
Proof.
  intros Hhas.
  unfold Controller.removeCommand. unfold_bind. unfold gets at 1; simpl.
  now rewrite Hhas.
Qed.


(** No callback changes the fields of the Controller. *)
Lemma handler_keeps_controller n o (s : Controller.t * App A) :
  fst (fst (handler (A := W) n o s)) = fst s.
Proof.
  unfold handler; simpl.
  destruct (Nat.eqb (notify o) (Controller.executeCommandFn C)).
  - destruct (Nat.eqb (context o) (Controller.controller C)); [|reflexivity].
    unfold Controller.executeCommand_run.
    destruct (JsMap.get _ _); [|reflexivity].
    now destruct (Controller.execute C _ _ _).
  - unfold Controller.aside. now destruct (call _ _ _ _).
Qed.


Lemma forEach_notify_keeps_controller n os : forall v e,
  Controller.this_of C
    (fst (forEach os (fun o => onSnd (notifyObserver (A := W) o n)) (v, e)))
  = Controller.this_of C (v, e)
  /\ fst (fst (forEach os (fun o => onSnd (notifyObserver (A := W) o n)) (v, e)))
     = v.
Proof.
  induction os as [|o os IH]; intros v e; simpl; auto.
  unfold_bind. rewrite notifyObserver_run.
  destruct (snd (handler n o (app e))).
  - destruct (IH v {| app := fst (handler (A := W) n o (app e));
                      trace := trace e ++ [Notified o n] |}) as [H1 H2].
    rewrite H1, H2. split; [|reflexivity].
    unfold Controller.this_of; simpl. apply handler_keeps_controller.
  - simpl. split; [|reflexivity].
    unfold Controller.this_of; simpl. apply handler_keeps_controller.
Qed.

Lemma notifyObservers_keeps_controller n v e :
  Controller.this_of C (fst (View.notifyObservers (A := W) n (v, e)))
  = Controller.this_of C (v, e)
  /\ fst (fst (View.notifyObservers (A := W) n (v, e))) = v.
Proof.
  unfold View.notifyObservers. unfold_bind. unfold gets; simpl.
  destruct (JsMap.get (View.observerMap v) (getName n)); [|auto].
  apply forEach_notify_keeps_controller.
Qed.

Lemma executeCommand_keeps n v e :
  Controller.this_of C (fst (Controller.executeCommand C n (v, e)))
  = Controller.this_of C (v, e)
  /\ fst (fst (Controller.executeCommand C n (v, e))) = v.
Proof.
  unfold Controller.executeCommand, onSnd, Controller.this_of; simpl.
  unfold Controller.executeCommand_run.
  destruct (JsMap.get _ _); simpl; [|auto].
  now destruct (Controller.execute C _ _ _).
Qed.

End ControllerSteps.

(** ** Counting observers by context *)

Section Counting.
Implicit Types (os : list Observer) (o : Observer) (c : Ref).

Lemma count_context_app c os os' :
  count_context c (os ++ os') = count_context c os + count_context c os'.
Proof.
  unfold count_context. now rewrite List.filter_app, length_app.
Qed.

Lemma count_context_none c os :
  (forall o, In o os -> compareNotifyContext o c = false) ->
  count_context c os = 0.
Proof.
  unfold count_context. induction os as [|o os IH]; intros H; simpl; auto.
  rewrite (H o) by now left. apply IH. intros o' Ho'. apply H. now right.
Qed.

(** Either no observer of a list has the context, or there is a last one
    that has it. *)
Lemma last_match c os :
  (forall o, In o os -> compareNotifyContext o c = false)
  \/ exists pre o post,
       os = pre ++ o :: post
       /\ compareNotifyContext o c = true
       /\ (forall p, In p post -> compareNotifyContext p c = false).
Proof.
  induction os as [|x os IH].
  - left. intros o [].
  - destruct IH as [Hnone|(pre & o & post & -> & Ho & Hpost)].
    + destruct (compareNotifyContext x c) eqn:Hx.
      * right. exists [], x, os. auto.
      * left. intros o [<-|Ho]; auto.
    + right. exists (x :: pre), o, post. auto.
Qed.

Lemma scanned_none c os :
  (forall o, In o os -> compareNotifyContext o c = false) ->
  View.scanned os c = os.
Proof.
  intros Hnone. apply removeObserver_loop_none. intros j o _ Hj.
  apply Hnone. apply list_elem_of_In.
  now apply (list_elem_of_lookup_2 os j o).
Qed.

(** One scan takes one observer with the context away, when there is one. *)
Lemma count_context_scanned c os :
  count_context c (View.scanned os c) = count_context c os - 1.
Proof.
  destruct (last_match c os) as [Hnone|(pre & o & post & -> & Ho & Hpost)].
  - rewrite scanned_none by exact Hnone.
    rewrite count_context_none by exact Hnone. reflexivity.
  - rewrite (scanned_split pre post o c Ho Hpost).
    rewrite !count_context_app.
    change (o :: post) with ([o] ++ post). rewrite count_context_app.
    assert (H1 : count_context c [o] = 1)
      by (unfold count_context; simpl; now rewrite Ho).
    lia.
Qed.

(** A scan for one context takes no observer with another context away. *)
Lemma count_context_scanned_other c c' os :
  c <> c' ->
  count_context c' (View.scanned os c) = count_context c' os.
Proof.
  intros Hne.
  destruct (last_match c os) as [Hnone|(pre & o & post & -> & Ho & Hpost)].
  - now rewrite scanned_none.
  - rewrite (scanned_split pre post o c Ho Hpost).
    rewrite !count_context_app.
    change (o :: post) with ([o] ++ post). rewrite count_context_app.
    assert (H0 : count_context c' [o] = 0).
    { unfold count_context, compareNotifyContext in *; simpl.
      apply Nat.eqb_eq in Ho.
      destruct (Nat.eqb_spec c' (context o)); [congruence|reflexivity]. }
    lia.
Qed.

Lemma In_scanned c os o : In o (View.scanned os c) -> In o os.
Proof.
  destruct (last_match c os) as [Hnone|(pre & x & post & -> & Hx & Hpost)].
  - now rewrite scanned_none.
  - rewrite (scanned_split pre post x c Hx Hpost).
    intros H. apply in_app_or in H. apply in_or_app.
    destruct H; [now left | right; now right].
Qed.



End Counting.

(** ** The Controller and the View stay in step *)

Section ControllerInvariant.
Context {A : Application} (C : Controller.Commands).
Local Abbreviation W := (Controller.withController C).
Implicit Types (v : View.t) (e : Env W) (name : string) (n : INotification).

Lemma observers_of_registerObserver_at v x y o :
  View.observers_of (View.registerObserver x o v) y
  = if string_dec x y then View.observers_of v x ++ [o]
    else View.observers_of v y.
Proof.
  destruct (string_dec x y) as [->|Hne].
  - apply observers_of_get. apply observers_of_registerObserver.
  - unfold View.observers_of. now rewrite get_registerObserver_ne.
Qed.

Lemma observers_of_removeObserver_at v x y c :
  View.observers_of (View.removeObserver x c v) y
  = if string_dec x y then View.scanned (View.observers_of v x) c
    else View.observers_of v y.
Proof.
  destruct (string_dec x y) as [->|Hne].
  - apply observers_of_removeObserver.
  - unfold View.observers_of. now rewrite get_removeObserver_ne.
Qed.

Lemma has_set {V} (m : JsMap.t V) k y (x : V) :
  JsMap.has (JsMap.set m k x) y = if string_dec k y then true else JsMap.has m y.
Proof.
  unfold JsMap.has. destruct (string_dec k y) as [->|Hne].
  - now rewrite JsMapFacts.get_set_eq.
  - now rewrite JsMapFacts.get_set_ne.
Qed.

Lemma has_delete {V} (m : JsMap.t V) k y :
  JsMap.has (JsMap.delete m k) y = if string_dec k y then false else JsMap.has m y.
Proof.
  unfold JsMap.has. destruct (string_dec k y) as [->|Hne].
  - now rewrite JsMapFacts.get_delete_eq.
  - now rewrite JsMapFacts.get_delete_ne.
Qed.

Lemma tidy_same s s' :
  fst s' = fst s -> Controller.this_of C s' = Controller.this_of C s ->
  Controller.tidy C s -> Controller.tidy C s'.
Proof.
  intros Hv Ht Htidy name. unfold Controller.tidy in Htidy.
  rewrite Hv, Ht. apply Htidy.
Qed.

Lemma tidy_same_observers s s' :
  View.observerMap (fst s') = View.observerMap (fst s) ->
  Controller.this_of C s' = Controller.this_of C s ->
  Controller.tidy C s -> Controller.tidy C s'.
Proof.
  intros Hv Ht Htidy name. unfold Controller.tidy in Htidy.
  unfold View.observers_of in *. rewrite Hv, Ht. apply Htidy.
Qed.

Lemma commandObserver_context :
  compareNotifyContext (Controller.commandObserver C) (Controller.controller C)
  = true.
Proof. apply Nat.eqb_refl. Qed.

Lemma registerCommand_tidy name cls s :
  Controller.tidy C s ->
  Controller.tidy C (fst (Controller.registerCommand C name cls s)).
Proof.
  destruct s as [v e]. intros Htidy y. destruct (Htidy y) as [Hcount Hobs].
  destruct (Controller.hasCommand name (Controller.this_of C (v, e))) eqn:Hhas.
  - rewrite (registerCommand_again C v e name cls Hhas).
    unfold Controller.hasCommand, Controller.this_of in *; simpl in *.
    rewrite has_set. split; [|exact Hobs].
    rewrite Hcount. destruct (string_dec name y) as [<-|]; [|reflexivity].
    now rewrite Hhas.
  - rewrite (registerCommand_new C v e name cls Hhas).
    unfold Controller.hasCommand, Controller.this_of in *; simpl in *.
    rewrite has_set, observers_of_registerObserver_at.
    destruct (string_dec name y) as [<-|Hne]; [|auto].
    split.
    + rewrite count_context_app, Hcount, Hhas.
      unfold count_context; simpl. now rewrite commandObserver_context.
    + intros o Hin Hctx. apply in_app_or in Hin as [Hin|[<-|[]]]; auto.
Qed.

Lemma removeCommand_tidy name s :
  Controller.tidy C s ->
  Controller.tidy C (fst (Controller.removeCommand C name s)).
Proof.
  destruct s as [v e]. intros Htidy y. destruct (Htidy y) as [Hcount Hobs].
  destruct (Controller.hasCommand name (Controller.this_of C (v, e))) eqn:Hhas.
  - rewrite (removeCommand_registered C v e name Hhas).
    unfold Controller.hasCommand, Controller.this_of in *; simpl in *.
    rewrite has_delete, observers_of_removeObserver_at.
    destruct (string_dec name y) as [<-|Hne]; [|auto].
    split.
    + rewrite count_context_scanned, Hcount, Hhas. reflexivity.
    + intros o Hin. apply Hobs. now apply In_scanned in Hin.
  - rewrite (removeCommand_unregistered C v e name Hhas). auto.
Qed.

Lemma foreign_registerObserver_tidy name o s :
  context o <> Controller.controller C ->
  Controller.tidy C s ->
  Controller.tidy C (View.registerObserver name o (fst s), snd s).
Proof.
  intros Hforeign Htidy y. destruct (Htidy y) as [Hcount Hobs].
  unfold Controller.this_of in *; simpl in *.
  rewrite observers_of_registerObserver_at.
  destruct (string_dec name y) as [<-|Hne]; [|auto].
  split.
  - rewrite count_context_app, Hcount.
    unfold count_context, compareNotifyContext; simpl.
    destruct (Nat.eqb_spec (Controller.controller C) (context o));
      [congruence | simpl; lia].
  - intros o' Hin Hctx. apply in_app_or in Hin as [Hin|[<-|[]]]; auto.
    contradiction.
Qed.

Lemma foreign_removeObserver_tidy name c s :
  c <> Controller.controller C ->
  Controller.tidy C s ->
  Controller.tidy C (View.removeObserver name c (fst s), snd s).
Proof.
  intros Hforeign Htidy y. destruct (Htidy y) as [Hcount Hobs].
  unfold Controller.this_of in *; simpl in *.
  rewrite observers_of_removeObserver_at.
  destruct (string_dec name y) as [<-|Hne]; [|auto].
  split.
  - now rewrite count_context_scanned_other.
  - intros o Hin. apply Hobs. now apply In_scanned in Hin.
Qed.

Lemma registered_tidy m (l : list string) : forall v e,
  m <> Controller.controller C ->
  Controller.tidy C (v, e) ->
  Controller.tidy C (View.registered (A := W) m l v, e).
Proof.
  unfold View.registered.
  induction l as [|x l IH]; intros v e Hm Htidy; simpl; auto.
  apply IH; [exact Hm|].
  now apply (foreign_registerObserver_tidy x _ (v, e)).
Qed.

Lemma stripped_tidy m (l : list string) : forall v e,
  m <> Controller.controller C ->
  Controller.tidy C (v, e) ->
  Controller.tidy C (View.stripped m l v, e).
Proof.
  unfold View.stripped.
  induction l as [|x l IH]; intros v e Hm Htidy; simpl; auto.
  apply IH; [exact Hm|].
  now apply (foreign_removeObserver_tidy x m (v, e)).
Qed.

Lemma registerMediator_tidy m v e :
  m <> Controller.controller C ->
  Controller.tidy C (v, e) /\ Controller.apart C (v, e) ->
  Controller.tidy C (fst (View.registerMediator (A := W) m (v, e)))
  /\ Controller.apart C (fst (View.registerMediator (A := W) m (v, e))).
Proof.
  intros Hm [Htidy Hapart].
  destruct (View.hasMediator (getMediatorName (Application := W) m) v)
    eqn:Hhas.
  - now rewrite registerMediator_taken.
  - rewrite registerMediator_run by exact Hhas. simpl fst. split.
    + apply (tidy_same_observers
               (View.registered (A := W) m
                  (listNotificationInterests (Application := W) m (app e))
                  (View.set_mediatorMap v
                     (JsMap.set (View.mediatorMap v)
                        (getMediatorName (Application := W) m) m)), e)).
      * reflexivity.
      * unfold Controller.this_of; simpl. unfold Controller.aside.
        now destruct (onRegister m (snd (app e))).
      * apply registered_tidy; [exact Hm|].
        now apply (tidy_same_observers (v, e)).
    + intros k m' Hin. simpl in Hin. rewrite mediatorMap_registered in Hin.
      simpl in Hin. apply In_set in Hin as [Heq|Hin].
      * congruence.
      * now apply (Hapart k).
Qed.

Lemma removeMediator_tidy name v e :
  Controller.tidy C (v, e) /\ Controller.apart C (v, e) ->
  Controller.tidy C (fst (View.removeMediator (A := W) name (v, e)))
  /\ Controller.apart C (fst (View.removeMediator (A := W) name (v, e))).
Proof.
  intros [Htidy Hapart].
  destruct (JsMap.get (View.mediatorMap v) name) as [m|] eqn:Hget.
  - assert (Hm : m <> Controller.controller C).
    { apply (Hapart name). now apply JsMapFacts.get_Some_In. }
    rewrite (removeMediator_run (A := W) v e name m Hget). simpl fst. split.
    + apply (tidy_same_observers
               (View.stripped m
                  (listNotificationInterests (Application := W) m (app e)) v, e)).
      * reflexivity.
      * unfold Controller.this_of; simpl. unfold Controller.aside.
        now destruct (onRemove m (snd (app e))).
      * now apply stripped_tidy.
    + intros k m' Hin. simpl in Hin. apply In_delete in Hin.
      now apply (Hapart k).
  - now rewrite (removeMediator_absent (A := W) v e name Hget).
Qed.

Lemma apart_same s s' :
  View.mediatorMap (fst s') = View.mediatorMap (fst s) ->
  Controller.apart C s -> Controller.apart C s'.
Proof.
  intros Hv Hs k m. rewrite Hv. apply Hs.
Qed.

Lemma reachable_tidy_apart s :
  Controller.reachable C s -> Controller.tidy C s /\ Controller.apart C s.
Proof.
  induction 1 as [a|s c Hs [IHt IHa] Hforeign|s a Hs [IHt IHa]].
  - split.
    + intros name. split; [reflexivity | intros o []].
    + intros k m [].
  - destruct c; simpl in *.
    + split; [now apply registerCommand_tidy|].
      destruct s as [v e]. apply (apart_same (v, e)); [|exact IHa].
      destruct (Controller.hasCommand notificationName
                  (Controller.this_of C (v, e))) eqn:Hhas.
      * now rewrite (registerCommand_again C v e _ _ Hhas).
      * rewrite (registerCommand_new C v e _ _ Hhas). simpl.
        apply mediatorMap_registerObserver.
    + split; [now apply removeCommand_tidy|].
      destruct s as [v e]. apply (apart_same (v, e)); [|exact IHa].
      destruct (Controller.hasCommand notificationName
                  (Controller.this_of C (v, e))) eqn:Hhas.
      * rewrite (removeCommand_registered C v e _ Hhas). simpl.
        apply mediatorMap_removeObserver.
      * now rewrite (removeCommand_unregistered C v e _ Hhas).
    + destruct s as [v e].
      destruct (executeCommand_keeps C notification v e) as [Ht Hv].
      split; [now apply (tidy_same (v, e))|].
      apply (apart_same (v, e)); [|exact IHa]. now rewrite Hv.
    + destruct s as [v e].
      destruct (notifyObservers_keeps_controller C notification v e) as [Ht Hv].
      split; [now apply (tidy_same (v, e))|].
      apply (apart_same (v, e)); [|exact IHa]. now rewrite Hv.
    + split; [now apply foreign_registerObserver_tidy|].
      apply (apart_same s); [|exact IHa]. apply mediatorMap_registerObserver.
    + split; [now apply foreign_removeObserver_tidy|].
      apply (apart_same s); [|exact IHa]. apply mediatorMap_removeObserver.
    + destruct s as [v e]. now apply registerMediator_tidy.
    + destruct s as [v e].
      destruct (removeMediator_tidy mediatorName v e (conj IHt IHa)) as [Ht Ha].
      unfold_bind.
      destruct (View.removeMediator (A := W) mediatorName (v, e)) as [s1 [r|err]];
        simpl in *; auto.
  - split; [now apply (tidy_same s)|]. now apply (apart_same s).
Qed.

Lemma reachable_tidy s : Controller.reachable C s -> Controller.tidy C s.
Proof.
  intros Hs. now apply reachable_tidy_apart.
Qed.

End ControllerInvariant.

(** ** Commands from registration to removal *)

Section ControllerLife.
Context {A : Application} (C : Controller.Commands).
Local Abbreviation W := (Controller.withController C).
Implicit Types (v : View.t) (e : Env W) (name : string) (n : INotification).


(** In a state that a program reaches while it keeps the Controller to
    itself, the View holds, under every notification name, exactly one
    observer with the Controller as context when a command is registered for
    the name, and none when there is no command for it. *)
Theorem one_observer_per_command (s : View.t * Env W) name :
  Controller.reachable C s ->
  count_context (Controller.controller C) (View.observers_of (fst s) name)
  = if Controller.hasCommand name (Controller.this_of C s) then 1 else 0.
Proof.
  intros Hs. apply (reachable_tidy C s Hs name).
Qed.



(** [executeCommand(n)] runs the class registered last for the name of [n]:
    after [registerCommand], whether the name had a command or not, it
    creates a command of the new class, runs its [execute(n)] and ends as
    that does, and it changes neither the View nor the command map.
    Registering for a name that has a command does not touch the View. *)
Theorem executeCommand_runs_the_class_registered_last v e n cls :
  let s1 := fst (Controller.registerCommand C (getName n) cls (v, e)) in
  let s2 := fst (Controller.executeCommand C n s1) in
  fst s2 = fst s1
  /\ Controller.this_of C s2 = Controller.this_of C s1
  /\ Controller.program_of C s2
     = fst (Controller.execute C cls n (Controller.program_of C (v, e)))
  /\ snd (Controller.executeCommand C n s1)
     = match snd (Controller.execute C cls n (Controller.program_of C (v, e))) with
       | Normal => Ret tt
       | Throw err => Exn err
       end
  /\ (Controller.hasCommand (getName n) (Controller.this_of C (v, e)) = true ->
      fst s1 = v).
Proof.
  cbv zeta.
  assert (Hboth : exists v1,
            fst (Controller.registerCommand C (getName n) cls (v, e))
            = (v1, Controller.with_commandMap C e
                     (JsMap.set (Controller.commandMap
                                   (Controller.this_of C (v, e)))
                        (getName n) cls))
            /\ (Controller.hasCommand (getName n) (Controller.this_of C (v, e))
                = true -> v1 = v)).
  { destruct (Controller.hasCommand (getName n) (Controller.this_of C (v, e)))
      eqn:Hhas.
    - rewrite (registerCommand_again C v e (getName n) cls Hhas). eauto.
    - rewrite (registerCommand_new C v e (getName n) cls Hhas).
      eexists. split; [reflexivity | discriminate]. }
  destruct Hboth as (v1 & -> & Hv1).
  unfold Controller.executeCommand, onSnd, Controller.executeCommand_run,
    Controller.this_of, Controller.program_of; simpl.
  rewrite JsMapFacts.get_set_eq.
  destruct (Controller.execute C cls n _) as [a c]; simpl.
  repeat split; auto.
Qed.

(** [removeCommand] right after [registerCommand] for a name that had no
    command gives the View and the Controller back as they were, in a view
    without empty observer lists. *)
Theorem removeCommand_undoes_registerCommand v e name cls :
  Controller.hasCommand name (Controller.this_of C (v, e)) = false ->
  lists_nonempty v ->
  Controller.removeCommand C name
    (fst (Controller.registerCommand C name cls (v, e)))
  = ((v, e), Ret tt).
Proof.
  intros Hhas Hinv.
  rewrite (registerCommand_new C v e name cls Hhas); simpl.
  rewrite removeCommand_registered.
  - change (Controller.controller C)
      with (context (Controller.commandObserver C)).
    rewrite (removeObserver_registerObserver v name _ Hinv).
    unfold Controller.this_of; simpl.
    rewrite delete_set_absent.
    + now destruct e as [[[cm] a] t].
    + now apply JsMapFacts.has_false_get.
  - unfold Controller.hasCommand, Controller.this_of; simpl.
    apply JsMapFacts.has_set_eq.
Qed.

(** After [removeCommand] there is no command for the name, whether there
    was one or not, and [executeCommand] for a notification of that name
    runs nothing and changes nothing. *)
Theorem removed_command_is_not_executed v e n :
  let s1 := fst (Controller.removeCommand C (getName n) (v, e)) in
  Controller.hasCommand (getName n) (Controller.this_of C s1) = false
  /\ Controller.executeCommand C n s1 = (s1, Ret tt).
Proof.
  cbv zeta.
  assert (Hnone : JsMap.get
            (Controller.commandMap
               (Controller.this_of C
                  (fst (Controller.removeCommand C (getName n) (v, e)))))
            (getName n) = None).
  { destruct (Controller.hasCommand (getName n) (Controller.this_of C (v, e)))
      eqn:Hhas.
    - rewrite (removeCommand_registered C v e (getName n) Hhas).
      unfold Controller.this_of; simpl. apply JsMapFacts.get_delete_eq.
    - rewrite (removeCommand_unregistered C v e (getName n) Hhas); simpl.
      now apply JsMapFacts.has_false_get. }
  destruct (fst (Controller.removeCommand C (getName n) (v, e))) as [v1 e1].
  split.
  - unfold Controller.hasCommand, JsMap.has. now rewrite Hnone.
  - unfold Controller.executeCommand, onSnd, Controller.executeCommand_run.
    unfold Controller.this_of in Hnone; simpl in *. rewrite Hnone.
    now destruct e1.
Qed.

End ControllerLife.

(** ** What the Controller leaves alone, and its disposal *)

Section ControllerDispose.
Context {A : Application} (C : Controller.Commands).
Local Abbreviation W := (Controller.withController C).
Implicit Types (v : View.t) (e : Env W) (name : string) (n : INotification).

Lemma others_app c (os os' : list Observer) :
  others c (os ++ os') = others c os ++ others c os'.
Proof. apply List.filter_app. Qed.

Lemma others_scanned c (os : list Observer) :
  others c (View.scanned os c) = others c os.
Proof.
  destruct (last_match c os) as [Hnone|(pre & o & post & -> & Ho & Hpost)].
  - now rewrite scanned_none.
  - rewrite (scanned_split pre post o c Ho Hpost).
    rewrite !others_app. f_equal. unfold others; simpl. now rewrite Ho.
Qed.

Lemma registerCommand_others name cls other (s : View.t * Env W) :
  others (Controller.controller C)
    (View.observers_of (fst (fst (Controller.registerCommand C name cls s))) other)
  = others (Controller.controller C) (View.observers_of (fst s) other).
Proof.
  destruct s as [v e].
  destruct (Controller.hasCommand name (Controller.this_of C (v, e))) eqn:Hhas.
  - now rewrite (registerCommand_again C v e name cls Hhas).
  - rewrite (registerCommand_new C v e name cls Hhas); simpl.
    rewrite observers_of_registerObserver_at.
    destruct (string_dec name other) as [<-|]; [|reflexivity].
    rewrite others_app. unfold others at 2; simpl.
    rewrite commandObserver_context; simpl. apply app_nil_r.
Qed.

Lemma removeCommand_others name other (s : View.t * Env W) :
  others (Controller.controller C)
    (View.observers_of (fst (fst (Controller.removeCommand C name s))) other)
  = others (Controller.controller C) (View.observers_of (fst s) other).
Proof.
  destruct s as [v e].
  destruct (Controller.hasCommand name (Controller.this_of C (v, e))) eqn:Hhas.
  - rewrite (removeCommand_registered C v e name Hhas); simpl.
    rewrite observers_of_removeObserver_at.
    destruct (string_dec name other) as [<-|]; [|reflexivity].
    apply others_scanned.
  - now rewrite (removeCommand_unregistered C v e name Hhas).
Qed.

Lemma removeCommand_returns name (s : View.t * Env W) :
  snd (Controller.removeCommand C name s) = Ret tt
  /\ Controller.program_of C (fst (Controller.removeCommand C name s))
     = Controller.program_of C s
  /\ trace (snd (fst (Controller.removeCommand C name s))) = trace (snd s)
  /\ (forall k,
        In k (JsMap.keys (Controller.commandMap
               (Controller.this_of C (fst (Controller.removeCommand C name s))))) ->
        In k (JsMap.keys (Controller.commandMap (Controller.this_of C s)))
        /\ k <> name).
Proof.
  destruct s as [v e].
  destruct (Controller.hasCommand name (Controller.this_of C (v, e))) eqn:Hhas.
  - rewrite (removeCommand_registered C v e name Hhas).
    unfold Controller.program_of, Controller.this_of; simpl.
    split; [reflexivity|]. split; [reflexivity|]. split; [reflexivity|].
    intros k Hin. apply JsMapFacts.keys_delete. exact Hin.
  - rewrite (removeCommand_unregistered C v e name Hhas); simpl.
    split; [reflexivity|]. split; [reflexivity|]. split; [reflexivity|].
    intros k Hin. split; [exact Hin|].
    intros ->. unfold Controller.hasCommand in Hhas.
    apply JsMapFacts.has_false_get in Hhas.
    now apply JsMapFacts.get_None_keys in Hhas.
Qed.

(** Removing the command of every key returns and leaves no command. *)
Lemma Controller_dispose_loop (names : list string) : forall s : View.t * Env W,
  (forall k, In k (JsMap.keys (Controller.commandMap (Controller.this_of C s))) ->
             In k names) ->
  Controller.tidy C s ->
  exists s',
    forEach names (fun name => Controller.removeCommand C name) s = (s', Ret tt)
    /\ Controller.commandMap (Controller.this_of C s') = []
    /\ Controller.tidy C s'
    /\ Controller.program_of C s' = Controller.program_of C s
    /\ trace (snd s') = trace (snd s)
    /\ (forall name,
          others (Controller.controller C) (View.observers_of (fst s') name)
          = others (Controller.controller C) (View.observers_of (fst s) name)).
Proof.
  induction names as [|name names IH]; intros s Hkeys Htidy; simpl.
  - exists s. split; [reflexivity|]. split; [|auto].
    apply JsMapFacts.keys_nil.
    destruct (JsMap.keys _) as [|k ks]; [reflexivity|].
    destruct (Hkeys k). now left.
  - unfold_bind.
    destruct (removeCommand_returns name s) as (Hret & Hprog & Htrace & Hk).
    destruct (Controller.removeCommand C name s) as [s1 r] eqn:Hrun.
    simpl in *. subst r.
    destruct (IH s1) as (s' & Hloop & Hempty & Htidy' & Hprog' & Htrace' & Hoth).
    + intros k Hin. destruct (Hk k Hin) as [Hin' Hne].
      destruct (Hkeys k Hin'); [congruence|assumption].
    + replace s1 with (fst (Controller.removeCommand C name s))
        by now rewrite Hrun.
      now apply removeCommand_tidy.
    + exists s'. split; [exact Hloop|]. split; [exact Hempty|].
      split; [exact Htidy'|]. split; [congruence|]. split; [congruence|].
      intros other. rewrite Hoth.
      replace s1 with (fst (Controller.removeCommand C name s))
        by now rewrite Hrun.
      apply removeCommand_others.
Qed.

(** [registerCommand] and [removeCommand] leave the observers of every
    other context where they are, under every name. *)
Theorem commands_leave_other_observers (s : View.t * Env W) name cls other :
  others (Controller.controller C)
    (View.observers_of (fst (fst (Controller.registerCommand C name cls s))) other)
  = others (Controller.controller C) (View.observers_of (fst s) other)
  /\ others (Controller.controller C)
       (View.observers_of (fst (fst (Controller.removeCommand C name s))) other)
     = others (Controller.controller C) (View.observers_of (fst s) other).
Proof.
  split; [apply registerCommand_others | apply removeCommand_others].
Qed.

(** [dispose()] of the Controller, in a state that a program reaches while
    it keeps the Controller to itself: it returns, clears the static
    instance, leaves no command and no observer of the Controller under any
    name, keeps the observers of every other context, and calls no
    application code. *)
Theorem Controller_dispose_removes_every_command
    (i : option Ref) (s : View.t * Env W) :
  Controller.reachable C s ->
  exists s',
    Controller.dispose C (i, s) = ((None, s'), Ret tt)
    /\ Controller.commandMap (Controller.this_of C s') = []
    /\ (forall name,
          count_context (Controller.controller C)
            (View.observers_of (fst s') name) = 0
          /\ others (Controller.controller C) (View.observers_of (fst s') name)
             = others (Controller.controller C) (View.observers_of (fst s) name))
    /\ Controller.program_of C s' = Controller.program_of C s
    /\ trace (snd s') = trace (snd s).
Proof.
  intros Hs.
  destruct (Controller_dispose_loop
              (JsMap.keys (Controller.commandMap (Controller.this_of C s))) s
              (fun k H => H) (reachable_tidy C s Hs))
    as (s' & Hloop & Hempty & Htidy & Hprog & Htrace & Hoth).
  exists s'. split; [|split; [exact Hempty|split; [|auto]]].
  - unfold Controller.dispose. unfold_bind. unfold onSnd at 1; simpl.
    unfold_bind. unfold gets; simpl. rewrite Hloop; simpl. reflexivity.
  - intros name. split; [|apply Hoth].
    destruct (Htidy name) as [Hcount _]. rewrite Hcount.
    unfold Controller.hasCommand. now rewrite Hempty.
Qed.

End ControllerDispose.

(** * The properties on the small application *)

Lemma removeObserver_removes_last_match_witness :
  JsMap.get (View.observerMap Demo.view12) "N" = Some ([] ++ Demo.o1 :: [Demo.o2])
  /\ compareNotifyContext Demo.o1 10 = true
  /\ JsMap.get (View.observerMap (View.removeObserver "N" 10 Demo.view12)) "N"
     = Some [Demo.o2].
Proof.
  split; [reflexivity|]. split; [reflexivity|].
  apply (removeObserver_removes_last_match Demo.view12 "N" 10 [] [Demo.o2] Demo.o1).
  - reflexivity.
  - reflexivity.
  - intros p [<-|[]]. reflexivity.
Defined.

Lemma removeObserver_without_match_changes_nothing_witness :
  JsMap.get (View.observerMap Demo.view12) "N" = Some [Demo.o1; Demo.o2]
  /\ View.removeObserver "N" 90 Demo.view12 = Demo.view12
  /\ View.removeObserver "M" 10 Demo.view12 = Demo.view12.
Proof.
  split; [reflexivity|]. split.
  - apply (proj2 (removeObserver_without_match_changes_nothing
                    Demo.view12 "N" 90) [Demo.o1; Demo.o2]).
    + reflexivity.
    + discriminate.
    + intros o [<-|[<-|[]]]; reflexivity.
  - apply (proj1 (removeObserver_without_match_changes_nothing
                    Demo.view12 "M" 10)).
    reflexivity.
Defined.

Lemma removeObserver_undoes_registerObserver_witness :
  lists_nonempty Demo.view12
  /\ View.removeObserver "N" 90 (View.registerObserver "N" Demo.o9 Demo.view12)
     = Demo.view12.
Proof.
  assert (Hinv : lists_nonempty Demo.view12)
    by (repeat constructor; discriminate).
  split; [exact Hinv|].
  exact (removeObserver_undoes_registerObserver Demo.view12 "N" Demo.o9 Hinv).
Defined.

Lemma observer_calls_leave_other_names_witness :
  "X" <> "N"
  /\ JsMap.get (View.observerMap (View.removeObserver "X" 10 Demo.view12X)) "N"
     = Some [Demo.o1; Demo.o2].
Proof.
  split; [discriminate|].
  exact (proj1 (proj2 (observer_calls_leave_other_names
                         Demo.view12X "X" "N" Demo.o1 10 ltac:(discriminate)))).
Defined.

Lemma dispose_calls_onRemove_in_key_order_witness :
  events_during (View.dispose (A := Demo.application2) 0)
    (Demo.views13, @Build_Env Demo.application2 [] [])
  = [OnRemove 1; OnRemove 3]
  /\ events_during (Model.dispose (A := Demo.application2) 0)
       (Demo.models56, @Build_Env Demo.application2 [] [])
     = [OnRemove 5; OnRemove 6].
Proof.
  split.
  - apply (proj1 (dispose_calls_onRemove_in_key_order (A := Demo.application2)
                    Demo.views13 Demo.models56
                    (@Build_Env Demo.application2 [] [])) 0
             {| View.mediatorMap := [("A", 1); ("B", 3)];
                View.observerMap :=
                  [("X", [newObserver 101 1; newObserver 103 3]);
                   ("Y", [newObserver 101 1])] |}).
    + reflexivity.
    + repeat constructor.
      * intros [H|[]]. discriminate H.
      * intros [].
    + intros k m a [H|[H|[]]]; injection H as <- <-; reflexivity.
  - apply (proj2 (dispose_calls_onRemove_in_key_order (A := Demo.application2)
                    Demo.views13 Demo.models56
                    (@Build_Env Demo.application2 [] [])) 0
             {| Model.proxyMap := [("colors", 5); ("shapes", 6)] |}).
    + reflexivity.
    + repeat constructor.
      * intros [H|[]]. discriminate H.
      * intros [].
    + intros k m a [H|[H|[]]]; injection H as <- <-; reflexivity.
Defined.

Lemma dispose_stops_at_throwing_hook_witness :
  snd (View.dispose (A := Demo.application) 0 Demo.state71)
  = Exn "onRemove failed"
  /\ instance (fst (fst (View.dispose (A := Demo.application) 0 Demo.state71)))
     = Some 0
  /\ (View.mediatorMap
        <$> objects (fst (fst (View.dispose (A := Demo.application) 0
                                 Demo.state71))) !! 0)
     = Some [("A", 1)]
  /\ events_during (View.dispose (A := Demo.application) 0) Demo.state71
     = [OnRemove 7].
Proof.
  apply (dispose_stops_at_throwing_hook (A := Demo.application)
           (fst Demo.state71) (snd Demo.state71) 0
           {| View.mediatorMap := [("B", 7); ("A", 1)];
              View.observerMap :=
                [("X", [newObserver 107 7; newObserver 101 1]);
                 ("Y", [newObserver 107 7; newObserver 101 1])] |}
           [] "B" 7 [("A", 1)] "onRemove failed").
  - reflexivity.
  - reflexivity.
  - repeat constructor.
    + intros [H|[]]. discriminate H.
    + intros [].
  - intros k' m' a [].
  - intros a. reflexivity.
Defined.

Lemma retrieved_mediator_has_the_name_witness :
  View.reachable Demo.state1
  /\ View.retrieveMediator "A"
       {| View.mediatorMap := [("A", 1)];
          View.observerMap :=
            [("X", [newObserver 101 1]); ("Y", [newObserver 101 1])] |}
     = Some 1
  /\ getMediatorName (Application := Demo.application) 1 = "A".
Proof.
  assert (Hreach : View.reachable Demo.state1).
  { unfold Demo.state1. apply View.reachable_perform.
    apply View.reachable_getInstance.
    apply (View.reachable_start (A := Demo.application) []). }
  split; [exact Hreach|]. split; [reflexivity|].
  exact (retrieved_mediator_has_the_name (A := Demo.application)
           Demo.state1 Hreach 0
           {| View.mediatorMap := [("A", 1)];
              View.observerMap :=
                [("X", [newObserver 101 1]); ("Y", [newObserver 101 1])] |}
           "A" 1 eq_refl eq_refl).
Defined.

Lemma proxy_calls_leave_other_names_witness :
  getProxyName (Application := Demo.application) 6 <> "shapes"
  /\ "colors" <> "shapes"
  /\ Model.retrieveProxy "shapes"
       (fst (fst (Model.registerProxy (A := Demo.application) 6
                    (Demo.model5, Demo.env0))))
     = Some 5.
Proof.
  split; [discriminate|]. split; [discriminate|].
  exact (proj1 (proxy_calls_leave_other_names (A := Demo.application)
                  Demo.model5 Demo.env0 6 "colors" "shapes"
                  ltac:(discriminate) ltac:(discriminate))).
Defined.

Lemma DemoController_state1_reachable :
  Controller.reachable DemoController.commands DemoController.state1.
Proof.
  unfold DemoController.state1.
  apply Controller.reachable_perform; [|exact I].
  apply Controller.reachable_perform; [|simpl; discriminate].
  apply (Controller.reachable_start (A := Demo.application)
           DemoController.commands []).
Defined.

Lemma one_observer_per_command_witness :
  Controller.reachable DemoController.commands DemoController.state1
  /\ count_context 200 (View.observers_of (fst DemoController.state1) "N") = 1
  /\ count_context 200 (View.observers_of (fst DemoController.state1) "M") = 0.
Proof.
  split; [exact DemoController_state1_reachable|]. split.
  - exact (one_observer_per_command DemoController.commands
             DemoController.state1 "N" DemoController_state1_reachable).
  - exact (one_observer_per_command DemoController.commands
             DemoController.state1 "M" DemoController_state1_reachable).
Defined.



Lemma executeCommand_runs_the_class_registered_last_witness :
  Controller.hasCommand "N"
    (Controller.this_of DemoController.commands DemoController.state1) = true
  /\ Controller.program_of DemoController.commands
       (fst (Controller.executeCommand DemoController.commands (Demo.note "N")
               (fst (Controller.registerCommand DemoController.commands "N" 6
                       DemoController.state1))))
     = [6]
  /\ fst (fst (Controller.registerCommand DemoController.commands "N" 6
                 DemoController.state1))
     = fst DemoController.state1.
Proof.
  split; [reflexivity|]. split.
  - exact (proj1 (proj2 (proj2
             (executeCommand_runs_the_class_registered_last
                DemoController.commands (fst DemoController.state1)
                (snd DemoController.state1) (Demo.note "N") 6)))).
  - exact (proj2 (proj2 (proj2 (proj2
             (executeCommand_runs_the_class_registered_last
                DemoController.commands (fst DemoController.state1)
                (snd DemoController.state1) (Demo.note "N") 6)))) eq_refl).
Defined.

Lemma removeCommand_undoes_registerCommand_witness :
  Controller.hasCommand "N"
    (Controller.this_of DemoController.commands DemoController.start12) = false
  /\ lists_nonempty Demo.view12
  /\ Controller.removeCommand DemoController.commands "N"
       (fst (Controller.registerCommand DemoController.commands "N" 5
               DemoController.start12))
     = (DemoController.start12, Ret tt).
Proof.
  assert (Hinv : lists_nonempty Demo.view12)
    by (repeat constructor; discriminate).
  split; [reflexivity|]. split; [exact Hinv|].
  exact (removeCommand_undoes_registerCommand DemoController.commands
           Demo.view12 (DemoController.env [] [] []) "N" 5 eq_refl Hinv).
Defined.

Lemma Controller_dispose_removes_every_command_witness :
  Controller.reachable DemoController.commands DemoController.state1
  /\ exists s',
       Controller.dispose DemoController.commands (Some 200, DemoController.state1)
       = ((None, s'), Ret tt)
       /\ Controller.commandMap
            (Controller.this_of DemoController.commands s') = []
       /\ View.observers_of (fst s') "N" = [Demo.o1].
Proof.
  split; [exact DemoController_state1_reachable|].
  destruct (Controller_dispose_removes_every_command DemoController.commands
              (Some 200) DemoController.state1 DemoController_state1_reachable)
    as (s' & Hrun & Hempty & _).
  exists s'. split; [exact Hrun|]. split; [exact Hempty|].
  injection Hrun as <-. reflexivity.
Defined.

(** * The dispatch loop on the array itself *)

Section LiveDispatch.
Context {A : Application} (callbacks : LiveView.Callbacks (A := A)).
Implicit Types (this : LiveView.t) (e : Env A) (n : INotification) (r : Ref).



Lemma valid_ref this name r :
  LiveView.valid this ->
  JsMap.get (LiveView.observerMap this) name = Some r ->
  r < length (LiveView.arrays this).
Proof.
  intros [Hrefs _] Hget. rewrite List.Forall_forall in Hrefs.
  exact (Hrefs (name, r) (JsMapFacts.get_Some_In _ _ _ Hget)).
Qed.



End LiveDispatch.



(** ** The View between two calls *)

Section Snapshot.
Context {A : Application}.
Implicit Types (this : LiveView.t) (e : Env A) (n : INotification) (r : Ref).

Lemma get_map_values {V W} (h : V -> W) (m : JsMap.t V) (k : string) :
  JsMap.get (map (fun entry => (fst entry, h (snd entry))) m) k
  = h <$> JsMap.get m k.
Proof.
  induction m as [|[k' v] m IH]; simpl; auto.
  now destruct (String.eqb k' k).
Qed.

Lemma delete_map_values {V W} (h : V -> W) (m : JsMap.t V) (k : string) :
  JsMap.delete (map (fun entry => (fst entry, h (snd entry))) m) k
  = map (fun entry => (fst entry, h (snd entry))) (JsMap.delete m k).
Proof.
  induction m as [|[k' v] m IH]; simpl; auto.
  destruct (String.eqb k' k); simpl; now rewrite IH.
Qed.

Lemma set_absent {V} (m : JsMap.t V) (k : string) (v : V) :
  JsMap.get m k = None -> JsMap.set m k v = m ++ [(k, v)].
Proof.
  induction m as [|[k' v'] m IH]; simpl; auto.
  destruct (String.eqb k' k); [discriminate|].
  intros H. now rewrite IH.
Qed.

Lemma get_snapshot this (k : string) :
  JsMap.get (View.observerMap (LiveView.snapshot this)) k
  = LiveView.elements this <$> JsMap.get (LiveView.observerMap this) k.
Proof. apply get_map_values. Qed.

Lemma observers_of_snapshot this (k : string) :
  View.observers_of (LiveView.snapshot this) k = LiveView.observers_of this k.
Proof.
  unfold View.observers_of, LiveView.observers_of. rewrite get_snapshot.
  now destruct (JsMap.get (LiveView.observerMap this) k).
Qed.



Lemma same_ref_same_key (m : JsMap.t Ref) (k1 k2 : string) r :
  List.NoDup (map snd m) -> In (k1, r) m -> In (k2, r) m -> k1 = k2.
Proof.
  induction m as [|[k r0] m IH]; simpl; [tauto|].
  intros Hnd [H1|H1] [H2|H2]; inversion Hnd as [|? ? Hnotin Hnd']; subst.
  - congruence.
  - injection H1 as -> ->. destruct Hnotin.
    now apply (in_map snd m (k2, r)).
  - injection H2 as -> ->. destruct Hnotin.
    now apply (in_map snd m (k1, r)).
  - now apply IH.
Qed.

(** Writing the array [r] changes what the names that hold another array
    show. *)
Lemma map_elements_other (arrays : list (list Observer)) r l (m : JsMap.t Ref) :
  (forall entry, In entry m -> snd entry <> r) ->
  map (fun entry => (fst entry, default [] (<[r := l]> arrays !! snd entry))) m
  = map (fun entry => (fst entry, default [] (arrays !! snd entry))) m.
Proof.
  intros Hother. apply map_ext_in. intros [k r0] Hin. simpl.
  rewrite list_lookup_insert_ne; [reflexivity|].
  intros ->. now apply (Hother (k, r0)).
Qed.

Lemma map_elements_written (arrays : list (list Observer)) r l (name : string) :
  forall m : JsMap.t Ref,
  JsMap.get m name = Some r ->
  List.NoDup (map snd m) ->
  r < length arrays ->
  map (fun entry => (fst entry, default [] (<[r := l]> arrays !! snd entry))) m
  = JsMap.set
      (map (fun entry => (fst entry, default [] (arrays !! snd entry))) m)
      name l.
Proof.
  induction m as [|[k r0] m IH]; simpl; [discriminate|].
  intros Hget Hnd Hr. inversion Hnd as [|? ? Hnotin Hnd']; subst.
  destruct (String.eqb_spec k name) as [->|Hne].
  - injection Hget as Hr0. subst r0.
    rewrite list_lookup_insert_eq by exact Hr. simpl. f_equal.
    apply map_elements_other. intros [k' r'] Hin Heq. simpl in Heq. subst r'.
    apply Hnotin. now apply (in_map snd m (k', r)).
  - rewrite list_lookup_insert_ne.
    + f_equal. now apply IH.
    + intros Heq. subst r0. apply Hnotin.
      apply (in_map snd m (name, r)). now apply JsMapFacts.get_Some_In.
Qed.

Lemma In_delete_key {V} (m : JsMap.t V) (k k' : string) (v : V) :
  In (k', v) (JsMap.delete m k) -> k' <> k.
Proof.
  induction m as [|[k0 v0] m IH]; simpl; [tauto|].
  destruct (String.eqb_spec k0 k) as [->|Hne]; simpl; auto.
  intros [H|H]; [congruence | auto].
Qed.

Lemma NoDup_delete (m : JsMap.t Ref) (k : string) :
  List.NoDup (map snd m) -> List.NoDup (map snd (JsMap.delete m k)).
Proof.
  induction m as [|[k0 r0] m IH]; simpl; auto.
  intros Hnd. inversion Hnd as [|? ? Hnotin Hnd']; subst.
  destruct (String.eqb k0 k); simpl; auto.
  constructor; auto.
  intros Hin. apply Hnotin. apply in_map_iff in Hin as [[k' r'] [Heq Hin]].
  simpl in Heq. subst r'. apply In_delete in Hin.
  now apply (in_map snd m (k', r0)).
Qed.

Lemma NoDup_snoc {X} (l : list X) (x : X) :
  List.NoDup l -> ~ In x l -> List.NoDup (l ++ [x]).
Proof.
  induction l as [|y l IH]; simpl; intros Hnd Hx.
  - repeat constructor. intros [].
  - inversion Hnd as [|? ? Hy Hnd']; subst. constructor.
    + intros Hin. apply in_app_or in Hin as [Hin|[<-|[]]]; tauto.
    + apply IH; tauto.
Qed.

Lemma snapshot_registerObserver this (name : string) o :
  LiveView.valid this ->
  LiveView.snapshot (LiveView.registerObserver name o this)
  = View.registerObserver name o (LiveView.snapshot this).
Proof.
  intros Hvalid. pose proof Hvalid as [Hrefs Hnd].
  unfold View.registerObserver. rewrite get_snapshot.
  unfold LiveView.registerObserver.
  destruct (JsMap.get (LiveView.observerMap this) name) as [r|] eqn:Hget; simpl.
  - unfold LiveView.snapshot, View.set_observerMap, LiveView.elements; simpl.
    f_equal.
    apply map_elements_written; auto. now apply (valid_ref this name).
  - unfold LiveView.snapshot, View.set_observerMap, LiveView.elements; simpl.
    f_equal.
    rewrite (set_absent (map _ _))
      by (rewrite (get_map_values
                     (fun r0 => default [] (LiveView.arrays this !! r0)));
          now rewrite Hget).
    rewrite set_absent by exact Hget.
    rewrite map_app; simpl. f_equal.
    + apply map_ext_in. intros [k r0] Hin; simpl.
      rewrite List.Forall_forall in Hrefs. specialize (Hrefs _ Hin); simpl in Hrefs.
      now rewrite lookup_app_l.
    + rewrite lookup_app_r by lia. now rewrite Nat.sub_diag.
Qed.

Lemma snapshot_removeObserver this (name : string) c :
  LiveView.valid this ->
  LiveView.snapshot (LiveView.removeObserver name c this)
  = View.removeObserver name c (LiveView.snapshot this).
Proof.
  intros Hvalid. pose proof Hvalid as [Hrefs Hnd].
  unfold View.removeObserver. rewrite get_snapshot.
  unfold LiveView.removeObserver.
  destruct (JsMap.get (LiveView.observerMap this) name) as [r|] eqn:Hget; simpl;
    [|reflexivity].
  pose proof (valid_ref this name r Hvalid Hget) as Hr.
  destruct (Nat.eqb (length (View.scanned (LiveView.elements this r) c)) 0).
  - unfold LiveView.snapshot, View.set_observerMap, LiveView.elements; simpl.
    f_equal.
    rewrite (delete_map_values
               (fun r0 => default [] (LiveView.arrays this !! r0))).
    apply map_elements_other. intros [k r0] Hin; simpl. intros ->.
    apply (In_delete_key _ _ _ _ Hin).
    apply (same_ref_same_key (LiveView.observerMap this) k name r Hnd).
    + now apply In_delete in Hin.
    + now apply JsMapFacts.get_Some_In.
  - unfold LiveView.snapshot, View.set_observerMap, LiveView.elements; simpl.
    f_equal. now apply map_elements_written.
Qed.

Lemma valid_registerObserver this (name : string) o :
  LiveView.valid this -> LiveView.valid (LiveView.registerObserver name o this).
Proof.
  intros Hvalid. pose proof Hvalid as [Hrefs Hnd].
  unfold LiveView.registerObserver, LiveView.valid.
  destruct (JsMap.get (LiveView.observerMap this) name) as [r|] eqn:Hget; simpl.
  - rewrite length_insert. auto.
  - rewrite set_absent by exact Hget. rewrite length_app, map_app; simpl. split.
    + apply Forall_app. split.
      * eapply List.Forall_impl; [|exact Hrefs]. simpl. intros; lia.
      * repeat constructor. simpl. lia.
    + apply NoDup_snoc; [exact Hnd|].
      intros Hin. apply in_map_iff in Hin as [[k r0] [Heq Hin]].
      rewrite List.Forall_forall in Hrefs. specialize (Hrefs _ Hin).
      simpl in *. lia.
Qed.

Lemma valid_removeObserver this (name : string) c :
  LiveView.valid this -> LiveView.valid (LiveView.removeObserver name c this).
Proof.
  intros Hvalid. pose proof Hvalid as [Hrefs Hnd].
  unfold LiveView.removeObserver, LiveView.valid.
  destruct (JsMap.get (LiveView.observerMap this) name) as [r|] eqn:Hget; simpl;
    [|exact Hvalid].
  rewrite length_insert.
  destruct (Nat.eqb (length (View.scanned (LiveView.elements this r) c)) 0).
  - split.
    + now apply (JsMapFacts.Forall_delete
                   (fun r => r < length (LiveView.arrays this))).
    + now apply NoDup_delete.
  - auto.
Qed.

(** Between two calls the View object with its arrays is the View object of
    [View]: a View built by [registerObserver] and [removeObserver] holds
    every array under one name, and the two methods do to the arrays what
    [View.registerObserver] and [View.removeObserver] do to the lists. *)
Theorem registerObserver_removeObserver_on_arrays this (name : string) o c :
  LiveView.valid this ->
  (LiveView.snapshot (LiveView.registerObserver name o this)
   = View.registerObserver name o (LiveView.snapshot this)
   /\ LiveView.valid (LiveView.registerObserver name o this))
  /\ (LiveView.snapshot (LiveView.removeObserver name c this)
      = View.removeObserver name c (LiveView.snapshot this)
      /\ LiveView.valid (LiveView.removeObserver name c this)).
Proof.
  intros Hvalid. repeat split.
  - now apply snapshot_registerObserver.
  - now apply (valid_registerObserver this name o).
  - now apply (valid_registerObserver this name o).
  - now apply snapshot_removeObserver.
  - now apply (valid_removeObserver this name c).
  - now apply (valid_removeObserver this name c).
Qed.

End Snapshot.


Lemma registerObserver_removeObserver_on_arrays_witness :
  LiveView.valid Demo.live12
  /\ LiveView.snapshot Demo.live12 = Demo.view12
  /\ LiveView.snapshot (LiveView.removeObserver "N" 10 Demo.live12)
     = View.removeObserver "N" 10 Demo.view12.
Proof.
  assert (Hvalid : LiveView.valid Demo.live12).
  { split.
    - repeat constructor.
    - repeat constructor. intros []. }
  split; [exact Hvalid|]. split; [reflexivity|].
  exact (proj1 (proj2 (registerObserver_removeObserver_on_arrays
                         Demo.live12 "N" Demo.o1 10 Hvalid))).
Defined.

(** C9 as stated fails when the [onRemove] hook of a registered mediator or
    proxy throws.  The View here holds mediator 7, whose hook throws, and
    then mediator 1: [dispose()] ends with the exception, the static field
    still holds the instance, and [getInstance()] returns that old object,
    in which mediator 1 is still registered.  The Model holds proxy 7:
    [dispose()] ends with the exception and [getInstance()] returns the old
    object. *)
Lemma dispose_twice_then_getInstance_counterexample :
  (View.reachable Demo.state71
   /\ instance (fst Demo.state71) = Some 0
   /\ snd (View.dispose (A := Demo.application) 0 Demo.state71)
      = Exn "onRemove failed"
   /\ instance (fst (fst (View.dispose (A := Demo.application) 0 Demo.state71)))
      = Some 0
   /\ snd (View.getInstance (A := Demo.application)
             (fst (View.dispose (A := Demo.application) 0 Demo.state71)))
      = Ret 0
   /\ (View.mediatorMap
         <$> objects (fst (fst (View.getInstance (A := Demo.application)
                (fst (View.dispose (A := Demo.application) 0 Demo.state71)))))
             !! 0)
      = Some [("A", 1)])
  /\ (instance (fst Demo.models7) = Some 0
      /\ snd (Model.dispose (A := Demo.application) 0 Demo.models7)
         = Exn "onRemove failed"
      /\ snd (Model.getInstance (A := Demo.application)
                (fst (Model.dispose (A := Demo.application) 0 Demo.models7)))
         = Ret 0).
Proof.
  split.
  - split; [|repeat split].
    unfold Demo.state71. repeat apply View.reachable_perform.
    apply View.reachable_getInstance.
    apply (View.reachable_start (A := Demo.application) []).
  - repeat split.
Qed.

(** A hook that throws is the outcome of the removal: mediator 7 and proxy
    7, registered under free names, are taken out of the maps, and
    [removeMediator] and [removeProxy] end with the exception of
    [onRemove] instead of returning them. *)
Example removal_with_throwing_hook :
  View.hasMediator "B" View.fresh = false
  /\ snd (View.removeMediator (A := Demo.application) "B"
            (fst (View.registerMediator (A := Demo.application) 7
                    (View.fresh, Demo.env0))))
     = Exn "onRemove failed"
  /\ snd (Model.removeProxy (A := Demo.application) "colors"
            (fst (Model.registerProxy (A := Demo.application) 7
                    (Model.fresh, Demo.env0))))
     = Exn "onRemove failed".
Proof. repeat split. Qed.
